(** * A shallow embedding of [osint_recon_cli_tool.py]

    The program checks whether a username exists on a catalogue of sites,
    either with one HTTP GET ([check_with_requests]) or with a scripted
    browser visit ([check_with_playwright]), and prints a score per username.

    Python strings are modelled as [string] (ASCII text), dictionaries as
    insertion-ordered association lists with unique keys, exceptions as an
    explicit [outcome], the remote services as a [World] the probes read,
    and the browser session as the list of calls made on it. *)

From Stdlib Require Import String Ascii List Bool Arith ZArith Lia.
From Stdlib Require Import Uint63 Floats.PrimFloat Floats.SpecFloat Floats.FloatOps.
Import ListNotations.
Open Scope list_scope.
Open Scope string_scope.

(** ** Python values the program uses *)

(** Exceptions the modelled calls can raise.  All are subclasses of Python's
    [Exception]; only the first is a [requests.RequestException]. *)
Inductive exn : Type :=
  | RequestException
  | PlaywrightError
  | ValueError
  | IndexError.

Definition is_RequestException (e : exn) : bool :=
  match e with RequestException => true | _ => false end.

(** The result of a call: a value, or an exception on its way up. *)
Inductive outcome (A : Type) : Type :=
  | Returns (a : A)
  | Raises (e : exn).
Arguments Returns {A} a.
Arguments Raises {A} e.

(** [sub in s] on strings. *)
Fixpoint str_in (sub s : string) : bool :=
  if String.prefix sub s then true
  else match s with
       | EmptyString => false
       | String _ rest => str_in sub rest
       end.

(** [str.lower()] on ASCII text: [A]..[Z] move to [a]..[z].  Every other
    character is left as it is; Python's [str.lower()] follows Unicode and
    changes some characters outside ASCII, which this model does not cover. *)
Definition lower_char (c : ascii) : ascii :=
  let n := N_of_ascii c in
  if (N.leb 65 n && N.leb n 90)%bool then ascii_of_N (n + 32) else c.

Fixpoint lower (s : string) : string :=
  match s with
  | EmptyString => EmptyString
  | String c rest => String (lower_char c) (lower rest)
  end.

Definition lbrace : ascii := ascii_of_N 123.
Definition rbrace : ascii := ascii_of_N 125.

(** [template.format(arg)] with one positional string argument, for the
    templates this program has: literal text, the doubled braces and the
    empty replacement field.  [used] records that the single argument has
    been consumed: a second empty field raises IndexError, a brace that
    opens or closes nothing raises ValueError.  A field that is not empty
    (an index, a keyword, a conversion, a format specification) is outside
    this model; no template of the catalogue has one, and the model raises
    ValueError there (Python accepts some of them, an explicit index 0 for
    one, and raises KeyError or IndexError on others). *)
Fixpoint format_from (used : bool) (template arg : string) : outcome string :=
  match template with
  | EmptyString => Returns EmptyString
  | String c rest =>
      if Ascii.eqb c lbrace then
        match rest with
        | EmptyString => Raises ValueError
        | String d rest' =>
            if Ascii.eqb d lbrace then
              match format_from used rest' arg with
              | Returns s => Returns (String lbrace s)
              | Raises e => Raises e
              end
            else if Ascii.eqb d rbrace then
              if used then Raises IndexError
              else match format_from true rest' arg with
                   | Returns s => Returns (arg ++ s)
                   | Raises e => Raises e
                   end
            else Raises ValueError
        end
      else if Ascii.eqb c rbrace then
        match rest with
        | EmptyString => Raises ValueError
        | String d rest' =>
            if Ascii.eqb d rbrace then
              match format_from used rest' arg with
              | Returns s => Returns (String rbrace s)
              | Raises e => Raises e
              end
            else Raises ValueError
        end
      else
        match format_from used rest arg with
        | Returns s => Returns (String c s)
        | Raises e => Raises e
        end
  end.

Definition format (template arg : string) : outcome string :=
  format_from false template arg.

(** A Python [dict] with string keys: insertion-ordered, keys unique. *)
Definition dict (V : Type) : Type := list (string * V).

Definition keys {V : Type} (d : dict V) : list string := map fst d.

Definition values {V : Type} (d : dict V) : list V := map snd d.

(** [d.get(k)]. *)
Fixpoint dict_get {V : Type} (d : dict V) (k : string) : option V :=
  match d with
  | [] => None
  | (k', v) :: rest => if String.eqb k k' then Some v else dict_get rest k
  end.

(** [d[k] = v]: an existing key keeps its place, a new key goes last. *)
Fixpoint dict_set {V : Type} (k : string) (v : V) (d : dict V) : dict V :=
  match d with
  | [] => [(k, v)]
  | (k', v') :: rest =>
      if String.eqb k k' then (k', v) :: rest
      else (k', v') :: dict_set k v rest
  end.

(** [{**a, **b}]: the entries of [a], then those of [b] written over them. *)
Definition dict_merge {V : Type} (a b : dict V) : dict V :=
  fold_left (fun d kv => dict_set (fst kv) (snd kv) d) b a.

(** [key in d]. *)
Definition dict_mem {V : Type} (k : string) (d : dict V) : bool :=
  match dict_get d k with Some _ => true | None => false end.

(** ** The catalogue (lines 18-72) *)

(** A site entry.  The program reads ["url"] by subscript and the other three
    keys with [.get(key, default)]; an absent key is [None]. *)
Record SiteConfig : Type := {
  url : string;
  method : option string;
  success_indicators : option (list string);
  failure_indicators : option (list string)
}.

Record Category : Type := {
  name : string;
  sites : dict SiteConfig
}.

(** [d.get(key, default)]. *)
Definition get_default {A : Type} (field : option A) (default : A) : A :=
  match field with Some a => a | None => default end.

Definition dquote : string := String (ascii_of_N 34) EmptyString.

Definition Instagram : SiteConfig := {|
  url := "https://www.instagram.com/{}/";
  method := Some "playwright";
  success_indicators := Some
    [ "profilePage_";
      dquote ++ "username" ++ dquote ++ ":" ++ dquote ++ "{}" ++ dquote;
      "content=" ++ dquote ++ "@{}" ];
  failure_indicators := Some
    [ "Sorry, this page isn't available"; "User not found" ]
|}.

Definition Facebook : SiteConfig := {|
  url := "https://www.facebook.com/{}/";
  method := Some "requests";
  success_indicators := Some [];
  failure_indicators := Some
    [ "This content isn't available"; "Page not found" ]
|}.

Definition Twitter : SiteConfig := {|
  url := "https://x.com/{}/";
  method := Some "playwright";
  success_indicators := Some
    [ "data-testid=" ++ dquote ++ "UserName" ++ dquote;
      "data-testid=" ++ dquote ++ "UserDescription" ++ dquote ];
  failure_indicators := Some
    [ "This account doesn't exist"; "Account suspended" ]
|}.

Definition Snapchat : SiteConfig := {|
  url := "https://www.snapchat.com/add/{}/";
  method := Some "playwright";
  success_indicators := Some
    [ "data-testid=" ++ dquote ++ "add-friend-button" ++ dquote; "snapcode" ];
  failure_indicators := Some
    [ "Hmm, couldn't find"; "User not found" ]
|}.

Definition LinkedIn : SiteConfig := {|
  url := "https://www.linkedin.com/in/{}/";
  method := Some "requests";
  success_indicators := Some [];
  failure_indicators := Some [ "This LinkedIn profile doesn't exist" ]
|}.

Definition GitHub : SiteConfig := {|
  url := "https://api.github.com/users/{}";
  method := Some "requests";
  success_indicators := Some [];
  failure_indicators := Some []
|}.

(** The dictionary literal of lines 18-69: category "3" starts empty. *)
Definition CATEGORIES_literal : dict Category :=
  [ ("1", {| name := "Social Sites";
             sites := [ ("Instagram", Instagram); ("Facebook", Facebook);
                        ("Twitter", Twitter); ("Snapchat", Snapchat) ] |});
    ("2", {| name := "Tech Side";
             sites := [ ("LinkedIn", LinkedIn); ("GitHub", GitHub) ] |});
    ("3", {| name := "All Sites"; sites := [] |}) ].

(** [cats[k]["sites"]]. *)
Definition sites_of (cats : dict Category) (k : string) : dict SiteConfig :=
  match dict_get cats k with Some c => sites c | None => [] end.

(** Line 72: [CATEGORIES["3"]["sites"] = {**..["1"]["sites"], **..["2"]["sites"]}]. *)
Definition CATEGORIES : dict Category :=
  match dict_get CATEGORIES_literal "3" with
  | Some c =>
      dict_set "3"
        {| name := name c;
           sites := dict_merge (sites_of CATEGORIES_literal "1")
                               (sites_of CATEGORIES_literal "2") |}
        CATEGORIES_literal
  | None => CATEGORIES_literal
  end.

(** ** The outside world *)

(** What [requests.get] hands back; the program reads [status_code] and
    [text], never [response_url] (the address after redirects). *)
Record Response : Type := {
  status_code : Z;
  text : string;
  response_url : string
}.

(** One browser as Playwright drives it: what each call of
    [check_with_playwright] does when made.  The calls made after the
    navigation depend on the address visited.  [page_goto] yields the status
    of the main response, or [None] where Playwright returns no response. *)
Record Browser : Type := {
  sync_playwright_enter : outcome unit;
  chromium_launch : outcome unit;
  browser_new_context : outcome unit;
  context_new_page : outcome unit;
  page_goto : string -> outcome (option Z);
  page_wait_for_timeout : string -> outcome unit;
  page_content : string -> outcome string;
  page_url : string -> string;
  browser_close : string -> outcome unit
}.

Record Remote : Type := {
  requests_get : string -> outcome Response;
  chromium : Browser
}.

(** The remote services at each moment; a moment passes with every
    [time.sleep(1)]. *)
Definition World : Type := nat -> Remote.

(** ** Calls on the outside world, and the monad that logs them *)

Inductive call : Type :=
  | Start        (* sync_playwright().__enter__() *)
  | Launch       (* p.chromium.launch(headless=True) *)
  | NewContext   (* browser.new_context(...) *)
  | NewPage      (* context.new_page() *)
  | Goto (u : string)
  | Wait         (* page.wait_for_timeout(2000) *)
  | Content      (* page.content() *)
  | Close        (* browser.close() *)
  | Stop         (* sync_playwright().__exit__() *)
  | Get (u : string)
  | Sleep.       (* time.sleep(1) *)

(** A computation: the calls that completed, in order, and how it ended. *)
Definition M (A : Type) : Type := (list call * outcome A)%type.

Definition ret {A : Type} (a : A) : M A := ([], Returns a).

Definition bind {A B : Type} (m : M A) (k : A -> M B) : M B :=
  match m with
  | (log, Returns a) => let (log', r) := k a in ((log ++ log')%list, r)
  | (log, Raises e) => (log, Raises e)
  end.

Notation "x <- m ;; k" := (bind m (fun x => k))
  (at level 61, m at next level, right associativity).
Notation "m ;;; k" := (bind m (fun _ => k))
  (at level 61, right associativity).

(** A call that completes is logged; one that raises leaves no entry. *)
Definition perform {A : Type} (c : call) (o : outcome A) : M A :=
  match o with
  | Returns a => ([c], Returns a)
  | Raises e => ([], Raises e)
  end.

(** A computation without calls. *)
Definition pure {A : Type} (o : outcome A) : M A := ([], o).

(** [try: m except <class> as e: handler]. *)
Definition try_except {A : Type} (m : M A) (catches : exn -> bool)
    (handler : exn -> M A) : M A :=
  match m with
  | (log, Raises e) =>
      if catches e then let (log', r) := handler e in ((log ++ log')%list, r)
      else (log, Raises e)
  | (log, Returns a) => (log, Returns a)
  end.

(** [with sync_playwright() as p: body]: once entered, the exit runs however
    the body ends. *)
Definition with_sync_playwright {A : Type} (b : Browser) (body : M A) : M A :=
  match sync_playwright_enter b with
  | Raises e => ([], Raises e)
  | Returns _ => let (log, r) := body in ((Start :: log ++ [Stop])%list, r)
  end.

Definition calls {A : Type} (m : M A) : list call := fst m.
Definition result {A : Type} (m : M A) : outcome A := snd m.

(** ** The probes (lines 82-183) *)

Definition Not_Found : bool * string := (false, "Not Found").
Definition Error_checking : bool * string := (false, "Error checking").

(** The loop of lines 118-121 and 173-175: does some failure indicator,
    lowercased, occur in the content? *)
Fixpoint failure_hit (content : string) (failure_indicators : list string) : bool :=
  match failure_indicators with
  | [] => false
  | indicator :: rest =>
      if str_in (lower indicator) content then true
      else failure_hit content rest
  end.

(** The loop of lines 124-128: the indicators are formatted one by one, and
    the first hit ends the loop. *)
Fixpoint success_hit (username content : string)
    (success_indicators : list string) : outcome bool :=
  match success_indicators with
  | [] => Returns false
  | indicator :: rest =>
      match format indicator username with
      | Raises e => Raises e
      | Returns formatted =>
          let formatted_indicator := lower formatted in
          if str_in formatted_indicator content then Returns true
          else success_hit username content rest
      end
  end.

(** Lines 133-144, the checks for specific platforms under a 200 status:
    [true] where one of them returns [True, url]. *)
Definition platform_check (username url current_url : string) : bool :=
  if str_in "snapchat.com" url then
    negb (str_in "/explore/" current_url)
    && str_in (lower username) (lower current_url)
  else if str_in "instagram.com" url then
    str_in ("/" ++ username ++ "/") current_url
    && negb (str_in "login" current_url)
  else if str_in "x.com" url || str_in "twitter.com" url then
    str_in ("/" ++ username) current_url
    && negb (str_in "home" current_url)
  else false.

(** [response and response.status == 200]. *)
Definition status_is_200 (response : option Z) : bool :=
  match response with
  | Some status => Z.eqb status 200
  | None => false
  end.

Definition setup_browser_context (b : Browser) : M unit :=
  perform NewContext (browser_new_context b).

Definition check_with_playwright (username : string) (site_config : SiteConfig)
    (b : Browser) : M (bool * string) :=
  try_except
    (with_sync_playwright b
       (perform Launch (chromium_launch b) ;;;
        setup_browser_context b ;;;
        perform NewPage (context_new_page b) ;;;
        url <- pure (format (url site_config) username) ;;
        response <- perform (Goto url) (page_goto b url) ;;
        perform Wait (page_wait_for_timeout b url) ;;;
        content <- perform Content (page_content b url) ;;
        let content := lower content in
        let current_url := page_url b url in
        perform Close (browser_close b url) ;;;
        let success_indicators := get_default (success_indicators site_config) [] in
        let failure_indicators := get_default (failure_indicators site_config) [] in
        if failure_hit content failure_indicators then ret Not_Found
        else
          hit <- pure (success_hit username content success_indicators) ;;
          if hit then ret (true, url)
          else if status_is_200 response
                  && platform_check username url current_url
          then ret (true, url)
          else ret Not_Found))
    (fun _ => true)
    (fun _ => ret Error_checking).

Definition check_with_requests (username : string) (site_config : SiteConfig)
    (r : Remote) : M (bool * string) :=
  try_except
    (url <- pure (format (url site_config) username) ;;
     response <- perform (Get url) (requests_get r url) ;;
     if str_in "api.github.com" url then
       ret (Z.eqb (status_code response) 200,
            if Z.eqb (status_code response) 200 then url else "Not Found")
     else if Z.eqb (status_code response) 200 then
       let content := lower (text response) in
       let failure_indicators := get_default (failure_indicators site_config) [] in
       if failure_hit content failure_indicators then ret Not_Found
       else ret (true, url)
     else ret Not_Found)
    is_RequestException
    (fun _ => ret Error_checking).

(** ** The batch (lines 185-246) *)

(** The body of the loop of [check_username], lines 192-197: the method
    selects the probe. *)
Definition check_site (username : string) (site_config : SiteConfig)
    (r : Remote) : M (bool * string) :=
  let method := get_default (method site_config) "requests" in
  if String.eqb method "playwright"
  then check_with_playwright username site_config (chromium r)
  else check_with_requests username site_config r.

(** The loop of [check_username] from moment [now] on, [results] being the
    dictionary filled so far. *)
Fixpoint check_loop (username : string) (items : list (string * SiteConfig))
    (world : World) (now : nat) (results : dict (bool * string))
    : M (dict (bool * string)) :=
  match items with
  | [] => ret results
  | (site_name, site_config) :: rest =>
      r <- check_site username site_config (world now) ;;
      let results := dict_set site_name r results in
      perform Sleep (Returns tt) ;;;
      check_loop username rest world (S now) results
  end.

Definition check_username (username : string) (sites : dict SiteConfig)
    (world : World) (now : nat) : M (dict (bool * string)) :=
  check_loop username sites world now [].

(** A Python number: the score is the int [0] or a float. *)
Inductive number : Type :=
  | Int (z : Z)
  | Float (f : float).

Definition float_of_nat (n : nat) : float :=
  PrimFloat.of_uint63 (Uint63.of_Z (Z.of_nat n)).

(** [a * 2^e] rounded to the nearest integer, ties to the even one. *)
Definition round_half_even (a e : Z) : Z :=
  if (0 <=? e)%Z then (a * 2 ^ e)%Z
  else
    let d := (2 ^ (- e))%Z in
    let q := (a / d)%Z in
    let r := (a mod d)%Z in
    match (2 * r ?= d)%Z with
    | Lt => q
    | Gt => (q + 1)%Z
    | Eq => if Z.even q then q else (q + 1)%Z
    end.

(** [round(x, 2)] on a float, as CPython computes it: the exact value of [x]
    is rounded to two decimals, ties to even, and the float nearest to that
    decimal is returned.  The quotient of the integer [n] by [100.0] is that
    float as long as [n < 2^53]. *)
Definition round2 (x : float) : float :=
  match Prim2SF x with
  | S754_finite s m e =>
      let n := round_half_even (100 * Zpos m) e in
      let y := PrimFloat.div (PrimFloat.of_uint63 (Uint63.of_Z n)) 100%float in
      if s then PrimFloat.opp y else y
  | _ => x
  end.

Definition found_count (results : dict (bool * string)) : nat :=
  length (filter (fun r => fst r) (values results)).

Definition total_sites (results : dict (bool * string)) : nat :=
  length results.

(** Line 235. *)
Definition possibility_score (found_count total_sites : nat) : number :=
  if Nat.ltb 0 total_sites
  then Float (round2 (PrimFloat.mul
                        (PrimFloat.div (float_of_nat found_count)
                                       (float_of_nat total_sites))
                        100%float))
  else Int 0.

Record Report : Type := {
  report_username : string;
  report_results : dict (bool * string);
  report_score : number
}.

(** The loop of [main] over the usernames, lines 226-247, without the
    printing. *)
Fixpoint main_loop (usernames : list string) (selected_sites : dict SiteConfig)
    (world : World) (now : nat) : M (list Report) :=
  match usernames with
  | [] => ret []
  | username :: rest =>
      results <- check_username username selected_sites world now ;;
      let score := possibility_score (found_count results) (total_sites results) in
      reports <- main_loop rest selected_sites world (now + length selected_sites) ;;
      ret ({| report_username := username;
              report_results := results;
              report_score := score |} :: reports)
  end.

(** [main]: [None] is [sys.exit()], after a bad argument count or an unknown
    choice. *)
Definition main (argv : list string) (choice : string) (world : World)
    : option (M (list Report)) :=
  if Nat.ltb (length argv) 2 || Nat.ltb 4 (length argv) then None
  else
    let usernames := tl argv in
    if negb (dict_mem choice CATEGORIES) then None
    else
      let selected_sites := sites_of CATEGORIES choice in
      Some (main_loop usernames selected_sites world 0).

(** ** The two halves of a probe, named for the statements below *)

(** What the matching of lines 113-146 gets to see of a rendered page. *)
Record Observation : Type := {
  request_url : string;       (* [url], the template with the username in it *)
  status : option Z;          (* [response.status], if there is a response *)
  body : string;              (* [content], already lowercased *)
  final_url : string          (* [current_url], the address after redirects *)
}.

(** Lines 93-111 of [check_with_playwright] on their own. *)
Definition rendered_fetch (username : string) (site_config : SiteConfig)
    (b : Browser) : M Observation :=
  with_sync_playwright b
    (perform Launch (chromium_launch b) ;;;
     setup_browser_context b ;;;
     perform NewPage (context_new_page b) ;;;
     url <- pure (format (url site_config) username) ;;
     response <- perform (Goto url) (page_goto b url) ;;
     perform Wait (page_wait_for_timeout b url) ;;;
     content <- perform Content (page_content b url) ;;
     let content := lower content in
     let current_url := page_url b url in
     perform Close (browser_close b url) ;;;
     ret {| request_url := url; status := response;
            body := content; final_url := current_url |}).

(** Lines 113-146 of [check_with_playwright] on their own. *)
Definition playwright_verdict (username : string) (site_config : SiteConfig)
    (o : Observation) : outcome (bool * string) :=
  let success_indicators := get_default (success_indicators site_config) [] in
  let failure_indicators := get_default (failure_indicators site_config) [] in
  if failure_hit (body o) failure_indicators then Returns Not_Found
  else
    match success_hit username (body o) success_indicators with
    | Raises e => Raises e
    | Returns true => Returns (true, request_url o)
    | Returns false =>
        if status_is_200 (status o)
           && platform_check username (request_url o) (final_url o)
        then Returns (true, request_url o)
        else Returns Not_Found
    end.

(** Lines 163-179 of [check_with_requests] on their own. *)
Definition requests_verdict (site_config : SiteConfig) (u : string)
    (response : Response) : bool * string :=
  if str_in "api.github.com" u then
    (Z.eqb (status_code response) 200,
     if Z.eqb (status_code response) 200 then u else "Not Found")
  else if Z.eqb (status_code response) 200 then
    if failure_hit (lower (text response))
         (get_default (failure_indicators site_config) [])
    then Not_Found
    else (true, u)
  else Not_Found.






(** ** The vocabulary of the statements *)

(** The indicators that format without raising. *)
Definition formats (username indicator : string) : Prop :=
  exists formatted, format indicator username = Returns formatted.

(** The network fails with transport errors only. *)
Definition transport_errors_only (world : World) : Prop :=
  forall now u e,
    requests_get (world now) u = Raises e -> is_RequestException e = true.

(** The address of every site can be built for the username. *)
Definition addresses_format (username : string) (items : dict SiteConfig) : Prop :=
  Forall (fun item => formats username (url (snd item))) items.

(** One entry per site, in the order of the sites: the entry of a site is
    what its probe returned at the moment the loop reached it. *)
Inductive per_site (username : string) (world : World)
  : nat -> list (string * SiteConfig) -> list (string * (bool * string)) -> Prop :=
  | per_site_nil now : per_site username world now [] []
  | per_site_cons now site_name site_config rest r entries :
      result (check_site username site_config (world now)) = Returns r ->
      per_site username world (S now) rest entries ->
      per_site username world now
        ((site_name, site_config) :: rest) ((site_name, r) :: entries).


(** The integer nearest to [10000 * found / total]: the hundredths of
    [100 * found / total] rounded to two decimals. *)
Definition hundredths (found total : nat) : Z :=
  ((20000 * Z.of_nat found + Z.of_nat total) / (2 * Z.of_nat total))%Z.

(** [n] is nearer to [10000 * found / total] than any other integer. *)
Definition nearest_hundredth (found total : nat) (n : Z) : Prop :=
  (2 * Z.abs (10000 * Z.of_nat found - n * Z.of_nat total) < Z.of_nat total)%Z.

(** The float that stands for the decimal [n / 100], as Python reads and
    prints it: the float nearest to it. *)
Definition decimal2 (n : Z) : float :=
  PrimFloat.div (PrimFloat.of_uint63 (Uint63.of_Z n)) 100%float.

(** A property of every number below a bound, as a conjunction. *)
Fixpoint all_below (P : nat -> Prop) (n : nat) : Prop :=
  match n with
  | O => True
  | S m => all_below P m /\ P m
  end.

(** The checks on the hundredths [n] of a score, as one boolean. *)
Definition hundredths_ok (found total : nat) (n : Z) : bool :=
  (2 * Z.abs (10000 * Z.of_nat found - n * Z.of_nat total) <? Z.of_nat total)%Z
  && (0 <=? n)%Z && (n <=? 10000)%Z
  && PrimFloat.leb 0%float (decimal2 n) && PrimFloat.leb (decimal2 n) 100%float.

Definition score_as_specified (found total : nat) : Prop :=
  possibility_score found total = Float (decimal2 (hundredths found total))
  /\ hundredths_ok found total (hundredths found total) = true.

(** ** Concrete sites and worlds for the examples *)

(** A browser whose every call completes and which shows one page. *)
Definition showing (response : option Z) (content current_url : string) : Browser :=
  {| sync_playwright_enter := Returns tt;
     chromium_launch := Returns tt;
     browser_new_context := Returns tt;
     context_new_page := Returns tt;
     page_goto := fun _ => Returns response;
     page_wait_for_timeout := fun _ => Returns tt;
     page_content := fun _ => Returns content;
     page_url := fun _ => current_url;
     browser_close := fun _ => Returns tt |}.

(** The same browser with a navigation that times out. *)
Definition timing_out : Browser :=
  {| sync_playwright_enter := Returns tt;
     chromium_launch := Returns tt;
     browser_new_context := Returns tt;
     context_new_page := Returns tt;
     page_goto := fun _ => Raises PlaywrightError;
     page_wait_for_timeout := fun _ => Returns tt;
     page_content := fun _ => Returns "";
     page_url := fun u => u;
     browser_close := fun _ => Returns tt |}.

(** A server that answers every GET alike, after a redirect to [landing]. *)
Definition answering (code : Z) (content landing : string) (b : Browser) : Remote :=
  {| requests_get := fun _ =>
       Returns {| status_code := code; text := content; response_url := landing |};
     chromium := b |}.

(** A network on which every GET fails. *)
Definition unreachable (b : Browser) : Remote :=
  {| requests_get := fun _ => Raises RequestException; chromium := b |}.

(** An API site in the manner of the catalogue's GitHub entry, with a
    failure indicator. *)
Definition api_with_marker : SiteConfig :=
  {| url := "https://api.github.com/users/{}";
     method := Some "requests";
     success_indicators := Some [];
     failure_indicators := Some ["Not Found"] |}.

(** A site without indicators on a domain no platform check knows. *)
Definition plain_site (m : string) : SiteConfig :=
  {| url := "https://example.org/u/{}";
     method := Some m;
     success_indicators := Some [];
     failure_indicators := Some [] |}.

(** A site whose first success indicator is not a well-formed template. *)
Definition stray_brace_site : SiteConfig :=
  {| url := "https://example.org/u/{}";
     method := Some "playwright";
     success_indicators := Some ["}"; "member since"];
     failure_indicators := Some [] |}.

Definition two_mirrors : dict SiteConfig :=
  [ ("GitHub", plain_site "requests"); ("Facebook", Facebook) ].

Definition tech_sites : dict SiteConfig :=
  [ ("LinkedIn", LinkedIn); ("GitHub", GitHub) ].

(** A world in which every GET fails and every navigation times out. *)
Definition dark_world : World := fun _ => unreachable timing_out.

(** A report with one site found out of three. *)
Definition one_in_three : dict (bool * string) :=
  [ ("A", (true, "https://api.example.org/users/alice"));
    ("B", Not_Found);
    ("C", Error_checking) ].

(** Three sites: an API without indicators, a page that says "not found",
    and a rendered site whose navigation times out. *)
Definition three_sites : dict SiteConfig :=
  [ ("A", {| url := "https://api.example.org/users/{}"; method := Some "requests";
             success_indicators := Some []; failure_indicators := Some [] |});
    ("B", {| url := "https://b.example.org/{}"; method := None;
             success_indicators := None;
             failure_indicators := Some ["Not Found"] |});
    ("C", {| url := "https://c.example.org/{}"; method := Some "playwright";
             success_indicators := Some ["profile"];
             failure_indicators := Some [] |}) ].

Definition three_sites_world : World := fun _ =>
  {| requests_get := fun u =>
       if str_in "b.example.org" u
       then Returns {| status_code := 200; text := "User not found";
                       response_url := u |}
       else Returns {| status_code := 200; text := "{ id: 7 }"; response_url := u |};
     chromium := timing_out |}.

(** ** The printed results (lines 9-15 and 240-244) *)

Definition ESC : string := String (ascii_of_N 27) EmptyString.

Module Colors.
Definition OKBLUE : string := ESC ++ "[94m".
Definition OKGREEN : string := ESC ++ "[92m".
Definition FAIL : string := ESC ++ "[91m".
Definition ENDC : string := ESC ++ "[0m".
Definition BOLD : string := ESC ++ "[1m".
Definition WARNING : string := ESC ++ "[93m".
End Colors.

Definition string_of_bytes (bytes : list N) : string :=
  fold_right (fun n rest => String (ascii_of_N n) rest) EmptyString bytes.

(** The two marks that open a result line, as the bytes the source file
    holds for them. *)
Definition found_mark : string :=
  string_of_bytes [226; 128; 154; 195; 186; 195; 150]%N.

Definition not_found_mark : string :=
  string_of_bytes [226; 128; 154; 195; 185; 195; 165]%N.

(** The line printed for one entry of the results, lines 241-244. *)
Definition result_line (site : string) (entry : bool * string) : string :=
  let (status, message) := entry in
  if status
  then Colors.OKGREEN ++ found_mark ++ " [Found] " ++ site ++ ": " ++ message
       ++ Colors.ENDC
  else Colors.FAIL ++ not_found_mark ++ " [Not Found] " ++ site ++ Colors.ENDC.

(** The loop of lines 240-244: the lines printed for the results, in order. *)
Definition printed_results (results : dict (bool * string)) : list string :=
  map (fun item => result_line (fst item) (snd item)) results.

(** ** More vocabulary: call logs *)

(** The browser calls of a rendered fetch that visits [u], in order. *)
Definition browser_script (u : string) : list call :=
  [Launch; NewContext; NewPage; Goto u; Wait; Content; Close].

(** [done] is an initial part of [script]. *)
Definition initial_part (done script : list call) : Prop :=
  exists rest, script = (done ++ rest)%list.

Definition is_sleep (c : call) : bool :=
  match c with Sleep => true | _ => false end.

(** The number of [time.sleep(1)] in a log. *)
Definition sleeps (log : list call) : nat := length (filter is_sleep log).


(** A world that answers 200 and shows a found page everywhere. *)
Definition bright_world : World := fun _ =>
  answering 200 "welcome" "https://example.org/"
    (showing (Some 200%Z) "profilePage_ snapcode data-testid=username"
       "https://example.org/").

(** Is the score the float [x]?  (Float comparison; an int is not.) *)
Definition score_is (x : float) (score : number) : bool :=
  match score with
  | Float y => PrimFloat.eqb y x
  | Int _ => false
  end.

(** The two ends of the scale, checked for [found] out of [total]. *)
Definition ends_of_scale (found total : nat) : Prop :=
  score_is 100%float (possibility_score found total) = Nat.eqb found total
  /\ score_is 0%float (possibility_score found total) = Nat.eqb found 0.

(** The report of a run in which one site of three was found. *)
Definition alice_report : Report :=
  {| report_username := "alice";
     report_results := one_in_three;
     report_score := Float (decimal2 3333) |}.

(** * Properties *)

(** ** Strings *)

Lemma prefix_app sub s :
  String.prefix sub s = true <-> exists post, s = sub ++ post.
Proof.
  revert s. induction sub as [| c sub IH]; intros s.
  - split; [intros _; now exists s | intros _; destruct s; reflexivity].
  - destruct s as [| d s]; simpl.
    + split; [discriminate | intros [post Hpost]; discriminate].
    + destruct (ascii_dec c d) as [-> | Hne].
      * rewrite IH. split; intros [post Hpost]; exists post.
        -- now rewrite Hpost.
        -- now injection Hpost.
      * split; [discriminate |]. intros [post Hpost]. injection Hpost as Hc _.
        now elim Hne.
Qed.

(** [str_in] is Python's [in]: the string holds [sub] somewhere. *)
Lemma str_in_spec sub s :
  str_in sub s = true <-> exists pre post, s = pre ++ sub ++ post.
Proof.
  induction s as [| d s IH].
  - cbn [str_in]. destruct (String.prefix sub "") eqn:Hp.
    + apply prefix_app in Hp. destruct Hp as [post Hpost].
      split; [intros _; now exists "", post | reflexivity].
    + split; [discriminate |]. intros (pre & post & H).
      destruct pre; simpl in H; [| discriminate].
      assert (Hp' : String.prefix sub "" = true) by (apply prefix_app; eauto).
      congruence.
  - cbn [str_in]. destruct (String.prefix sub (String d s)) eqn:Hp.
    + apply prefix_app in Hp. destruct Hp as [post Hpost].
      split; [intros _; now exists "", post | reflexivity].
    + rewrite IH. split.
      * intros (pre & post & ->). now exists (String d pre), post.
      * intros (pre & post & H). destruct pre as [| c pre]; simpl in H.
        -- assert (Hp' : String.prefix sub (String d s) = true)
             by (apply prefix_app; eauto).
           congruence.
        -- injection H as _ ->. now exists pre, post.
Qed.

(** ** The monad *)

Lemma result_bind {A B : Type} (m : M A) (k : A -> M B) :
  result (bind m k) =
  match result m with
  | Returns a => result (k a)
  | Raises e => Raises e
  end.
Proof.
  destruct m as [log [a | e]]; simpl; [destruct (k a) |]; reflexivity.
Qed.

Lemma calls_bind {A B : Type} (m : M A) (k : A -> M B) :
  calls (bind m k) =
  match result m with
  | Returns a => (calls m ++ calls (k a))%list
  | Raises e => calls m
  end.
Proof.
  destruct m as [log [a | e]]; simpl; [destruct (k a) |]; reflexivity.
Qed.

Lemma result_try_except {A : Type} (m : M A) catches (handler : exn -> M A) :
  result (try_except m catches handler) =
  match result m with
  | Returns a => Returns a
  | Raises e => if catches e then result (handler e) else Raises e
  end.
Proof.
  destruct m as [log [a | e]]; simpl; [reflexivity |].
  destruct (catches e); [destruct (handler e) |]; reflexivity.
Qed.

Lemma result_with_sync_playwright {A : Type} (b : Browser) (body : M A) :
  result (with_sync_playwright b body) =
  match sync_playwright_enter b with
  | Returns _ => result body
  | Raises e => Raises e
  end.
Proof.
  unfold with_sync_playwright.
  destruct (sync_playwright_enter b); [destruct body |]; reflexivity.
Qed.

Lemma result_perform {A : Type} (c : call) (o : outcome A) :
  result (perform c o) = o.
Proof. destruct o; reflexivity. Qed.

(** [check_with_playwright] is its fetch followed by its matching; whatever
    either raises becomes "Error checking". *)
Lemma check_with_playwright_result username site_config b :
  result (check_with_playwright username site_config b) =
  match result (rendered_fetch username site_config b) with
  | Raises _ => Returns Error_checking
  | Returns o =>
      match playwright_verdict username site_config o with
      | Raises _ => Returns Error_checking
      | Returns v => Returns v
      end
  end.
Proof.
  unfold check_with_playwright, rendered_fetch, playwright_verdict,
    setup_browser_context, with_sync_playwright.
  destruct (sync_playwright_enter b); [| reflexivity].
  destruct (chromium_launch b); [| reflexivity].
  destruct (browser_new_context b); [| reflexivity].
  destruct (context_new_page b); [| reflexivity].
  destruct (format (url site_config) username) as [u |]; [| reflexivity].
  simpl.
  destruct (page_goto b u) as [response |]; [| reflexivity].
  destruct (page_wait_for_timeout b u); [| reflexivity].
  destruct (page_content b u) as [content |]; [| reflexivity].
  destruct (browser_close b u); [| reflexivity].
  simpl.
  destruct (failure_hit _ _); [reflexivity |].
  destruct (success_hit _ _ _) as [[|] |]; try reflexivity.
  simpl.
  destruct (status_is_200 response && platform_check _ _ _); reflexivity.
Qed.

(** A fetch that returns has built the address and read the page there. *)
Lemma rendered_fetch_returns username site_config b o :
  result (rendered_fetch username site_config b) = Returns o ->
  exists u response content,
    format (url site_config) username = Returns u
    /\ page_goto b u = Returns response
    /\ page_content b u = Returns content
    /\ o = {| request_url := u; status := response;
              body := lower content; final_url := page_url b u |}.
Proof.
  unfold rendered_fetch, with_sync_playwright, setup_browser_context.
  destruct (sync_playwright_enter b); [| discriminate].
  destruct (chromium_launch b); [| discriminate].
  destruct (browser_new_context b); [| discriminate].
  destruct (context_new_page b); [| discriminate].
  destruct (format (url site_config) username) as [u |]; [| discriminate].
  simpl.
  destruct (page_goto b u) as [response |] eqn:Hgoto; [| discriminate].
  destruct (page_wait_for_timeout b u); [| discriminate].
  destruct (page_content b u) as [content |] eqn:Hcontent; [| discriminate].
  destruct (browser_close b u); [| discriminate].
  simpl. intros [= <-]. exists u, response, content. auto.
Qed.

(** [check_with_requests] turns a [RequestException] into "Error checking"
    and lets any other exception through. *)
Lemma check_with_requests_result username site_config r :
  result (check_with_requests username site_config r) =
  match format (url site_config) username with
  | Raises e => if is_RequestException e then Returns Error_checking else Raises e
  | Returns u =>
      match requests_get r u with
      | Raises e => if is_RequestException e then Returns Error_checking else Raises e
      | Returns response => Returns (requests_verdict site_config u response)
      end
  end.
Proof.
  unfold check_with_requests, requests_verdict.
  destruct (format (url site_config) username) as [u | e]; simpl.
  - destruct (requests_get r u) as [response | e]; simpl.
    + destruct (str_in "api.github.com" u); [reflexivity |].
      destruct (Z.eqb (status_code response) 200); [| reflexivity].
      destruct (failure_hit _ _); reflexivity.
    + destruct (is_RequestException e); reflexivity.
  - destruct (is_RequestException e); reflexivity.
Qed.

(** ** The matching loops *)

Lemma failure_hit_In content indicators indicator :
  In indicator indicators ->
  str_in (lower indicator) content = true ->
  failure_hit content indicators = true.
Proof.
  induction indicators as [| i rest IH]; simpl; [contradiction |].
  intros [-> | Hin] Hhit.
  - now rewrite Hhit.
  - destruct (str_in (lower i) content); [reflexivity | auto].
Qed.

Lemma success_hit_reached username content earlier indicator later formatted :
  Forall (formats username) earlier ->
  format indicator username = Returns formatted ->
  str_in (lower formatted) content = true ->
  success_hit username content (earlier ++ indicator :: later)%list = Returns true.
Proof.
  intros Hearlier Hfmt Hhit.
  induction Hearlier as [| i rest [f Hf] _ IH]; simpl.
  - now rewrite Hfmt, Hhit.
  - rewrite Hf. destruct (str_in (lower f) content); [reflexivity | exact IH].
Qed.

(** ** The probes *)

(** C1, as stated, fails on the GitHub path of [check_with_requests]: a 200
    answer whose text holds a failure indicator is reported as found. *)
Lemma C1_counterexample :
  let r := answering 200 "message: Not Found" "https://api.github.com/users/alice"
             timing_out in
  format (url api_with_marker) "alice" = Returns "https://api.github.com/users/alice"
  /\ In "Not Found" (get_default (failure_indicators api_with_marker) [])
  /\ str_in (lower "Not Found") (lower "message: Not Found") = true
  /\ result (check_with_requests "alice" api_with_marker r)
     = Returns (true, "https://api.github.com/users/alice")
  /\ result (check_site "alice" api_with_marker r) <> Returns Not_Found.
Proof.
  cbv zeta. repeat split; try reflexivity.
  - simpl. auto.
  - vm_compute. discriminate.
Qed.

(** C1 (amended): when the fetch delivered a body and some failure indicator,
    lowercased, occurs in the lowercased body, the probe answers "Not Found"
    whatever the success indicators are and wherever in the list the
    indicator stands; this holds for the Playwright probe, and for the
    requests probe on every address without "api.github.com". *)
Theorem C1_failure_indicator_wins :
  (forall username site_config b o indicator,
      result (rendered_fetch username site_config b) = Returns o ->
      In indicator (get_default (failure_indicators site_config) []) ->
      str_in (lower indicator) (body o) = true ->
      result (check_with_playwright username site_config b) = Returns Not_Found)
  /\
  (forall username site_config r u response indicator,
      format (url site_config) username = Returns u ->
      requests_get r u = Returns response ->
      str_in "api.github.com" u = false ->
      In indicator (get_default (failure_indicators site_config) []) ->
      str_in (lower indicator) (lower (text response)) = true ->
      result (check_with_requests username site_config r) = Returns Not_Found).
Proof.
  split.
  - intros username site_config b o indicator Hfetch Hin Hhit.
    rewrite check_with_playwright_result, Hfetch.
    unfold playwright_verdict.
    now rewrite (failure_hit_In _ _ _ Hin Hhit).
  - intros username site_config r u response indicator Hfmt Hget Hgit Hin Hhit.
    rewrite check_with_requests_result, Hfmt, Hget.
    unfold requests_verdict. rewrite Hgit.
    destruct (Z.eqb (status_code response) 200); [| reflexivity].
    now rewrite (failure_hit_In _ _ _ Hin Hhit).
Qed.

Lemma C1_witness :
  result (check_with_playwright "alice" Instagram
            (showing (Some 200%Z)
               "<p>Sorry, this page isn't available</p> profilePage_1"
               "https://www.instagram.com/alice/"))
  = Returns Not_Found
  /\
  result (check_with_requests "alice" Facebook
            (answering 200 "This content isn't available"
               "https://www.facebook.com/alice/" timing_out))
  = Returns Not_Found.
Proof.
  split.
  - apply (proj1 C1_failure_indicator_wins "alice" Instagram _
             {| request_url := "https://www.instagram.com/alice/";
                status := Some 200%Z;
                body := lower "<p>Sorry, this page isn't available</p> profilePage_1";
                final_url := "https://www.instagram.com/alice/" |}
             "Sorry, this page isn't available").
    + reflexivity.
    + simpl. auto.
    + reflexivity.
  - apply (proj2 C1_failure_indicator_wins "alice" Facebook _
             "https://www.facebook.com/alice/"
             {| status_code := 200; text := "This content isn't available";
                response_url := "https://www.facebook.com/alice/" |}
             "This content isn't available").
    + reflexivity.
    + reflexivity.
    + reflexivity.
    + simpl. auto.
    + reflexivity.
Defined.

(** C2, as stated, fails twice.  What a hit returns is [url], the address
    asked for, not the address the browser ended on; and a success indicator
    that cannot be formatted ends the probe with "Error checking" before the
    later indicators are tried. *)
Lemma C2_counterexample :
  (let b := showing (Some 200%Z) "<div id=profilePage_77>"
              "https://www.instagram.com/accounts/login/" in
   exists o,
     result (rendered_fetch "alice" Instagram b) = Returns o
     /\ final_url o = "https://www.instagram.com/accounts/login/"
     /\ failure_hit (body o) (get_default (failure_indicators Instagram) []) = false
     /\ In "profilePage_" (get_default (success_indicators Instagram) [])
     /\ format "profilePage_" "alice" = Returns "profilePage_"
     /\ str_in (lower "profilePage_") (body o) = true
     /\ result (check_with_playwright "alice" Instagram b)
        = Returns (true, "https://www.instagram.com/alice/")
     /\ result (check_with_playwright "alice" Instagram b)
        <> Returns (true, final_url o))
  /\
  (let b := showing (Some 200%Z) "Member since 2019" "https://example.org/u/alice" in
   exists o,
     result (rendered_fetch "alice" stray_brace_site b) = Returns o
     /\ failure_hit (body o) (get_default (failure_indicators stray_brace_site) []) = false
     /\ In "member since" (get_default (success_indicators stray_brace_site) [])
     /\ format "member since" "alice" = Returns "member since"
     /\ str_in (lower "member since") (body o) = true
     /\ result (check_with_playwright "alice" stray_brace_site b)
        = Returns Error_checking).
Proof.
  cbv zeta. split.
  - eexists. split; [reflexivity |]. simpl.
    repeat split; try reflexivity; [auto | vm_compute; discriminate].
  - eexists. split; [reflexivity |]. simpl.
    repeat split; try reflexivity; auto.
Qed.

(** C2 (amended): when the fetch delivered a body in which no failure
    indicator occurs, and some success indicator, formatted with the username
    and lowercased, occurs in it, the Playwright probe answers found, provided
    the indicators listed before that one format without raising; the
    requests probe answers found on every 200 answer without a failure
    indicator.  The locator is [url], the template with the username in it,
    not the address reached after redirects. *)
Theorem C2_success_indicator_found :
  (forall username site_config b o earlier indicator later formatted,
      result (rendered_fetch username site_config b) = Returns o ->
      failure_hit (body o) (get_default (failure_indicators site_config) []) = false ->
      get_default (success_indicators site_config) []
        = (earlier ++ indicator :: later)%list ->
      Forall (formats username) earlier ->
      format indicator username = Returns formatted ->
      str_in (lower formatted) (body o) = true ->
      result (check_with_playwright username site_config b)
        = Returns (true, request_url o)
      /\ format (url site_config) username = Returns (request_url o))
  /\
  (forall username site_config r u response,
      format (url site_config) username = Returns u ->
      requests_get r u = Returns response ->
      status_code response = 200%Z ->
      failure_hit (lower (text response))
        (get_default (failure_indicators site_config) []) = false ->
      result (check_with_requests username site_config r) = Returns (true, u)).
Proof.
  split.
  - intros username site_config b o earlier indicator later formatted
      Hfetch Hfail Hlist Hearlier Hfmt Hhit.
    split.
    + rewrite check_with_playwright_result, Hfetch.
      unfold playwright_verdict. rewrite Hfail, Hlist.
      now rewrite (success_hit_reached _ _ _ _ _ _ Hearlier Hfmt Hhit).
    + destruct (rendered_fetch_returns _ _ _ _ Hfetch)
        as (u & response & content & Hu & _ & _ & ->).
      exact Hu.
  - intros username site_config r u response Hfmt Hget Hstatus Hfail.
    rewrite check_with_requests_result, Hfmt, Hget.
    unfold requests_verdict. rewrite Hstatus, Hfail. simpl.
    destruct (str_in "api.github.com" u); reflexivity.
Qed.

Lemma C2_witness :
  (result (check_with_playwright "alice" Instagram
             (showing (Some 200%Z) "<div id=profilePage_77>"
                "https://www.instagram.com/accounts/login/"))
   = Returns (true, "https://www.instagram.com/alice/")
   /\ format (url Instagram) "alice" = Returns "https://www.instagram.com/alice/")
  /\
  result (check_with_requests "alice" Facebook
            (answering 200 "Alice | Facebook" "https://www.facebook.com/alice/"
               timing_out))
  = Returns (true, "https://www.facebook.com/alice/").
Proof.
  split.
  - apply (proj1 C2_success_indicator_found "alice" Instagram _
             {| request_url := "https://www.instagram.com/alice/";
                status := Some 200%Z;
                body := lower "<div id=profilePage_77>";
                final_url := "https://www.instagram.com/accounts/login/" |}
             [] "profilePage_"
             (tl (get_default (success_indicators Instagram) []))
             "profilePage_").
    + reflexivity.
    + reflexivity.
    + reflexivity.
    + constructor.
    + reflexivity.
    + reflexivity.
  - apply (proj2 C2_success_indicator_found "alice" Facebook _
             "https://www.facebook.com/alice/"
             {| status_code := 200; text := "Alice | Facebook";
                response_url := "https://www.facebook.com/alice/" |}).
    + reflexivity.
    + reflexivity.
    + reflexivity.
    + reflexivity.
Defined.

(** C3, as stated, fails twice.  The Playwright probe has no branch for a
    200 answer from a site outside the three platform checks and falls
    through to "Not Found"; and the requests probe reports [url], not the
    address the redirects ended on. *)
Lemma C3_counterexample :
  (let b := showing (Some 200%Z) "{ id: 7 }" "https://example.org/u/alice" in
   exists o,
     result (rendered_fetch "alice" (plain_site "playwright") b) = Returns o
     /\ status o = Some 200%Z
     /\ final_url o = "https://example.org/u/alice"
     /\ str_in "snapchat.com" (final_url o) = false
     /\ str_in "instagram.com" (final_url o) = false
     /\ str_in "x.com" (final_url o) = false
     /\ str_in "twitter.com" (final_url o) = false
     /\ result (check_site "alice" (plain_site "playwright")
                  (answering 200 "{ id: 7 }" "https://example.org/u/alice" b))
        = Returns Not_Found)
  /\
  (let r := answering 200 "{ id: 7 }" "https://example.org/profiles/7" timing_out in
   exists response,
     requests_get r "https://example.org/u/alice" = Returns response
     /\ status_code response = 200%Z
     /\ response_url response = "https://example.org/profiles/7"
     /\ result (check_site "alice" (plain_site "requests") r)
        = Returns (true, "https://example.org/u/alice")
     /\ result (check_site "alice" (plain_site "requests") r)
        <> Returns (true, response_url response)).
Proof.
  cbv zeta. split.
  - eexists. split; [reflexivity |]. simpl. repeat split; reflexivity.
  - eexists. split; [reflexivity |]. simpl.
    repeat split; try reflexivity. vm_compute. discriminate.
Qed.

(** C3 (amended): for a site probed with requests that has no failure
    indicators, a 200 answer makes the probe answer found at [url], the
    template with the username in it.  (Success indicators and the domain
    play no part on this path.) *)
Theorem C3_requests_200_found :
  forall username site_config r u response,
    String.eqb (get_default (method site_config) "requests") "playwright" = false ->
    get_default (failure_indicators site_config) [] = [] ->
    format (url site_config) username = Returns u ->
    requests_get r u = Returns response ->
    status_code response = 200%Z ->
    result (check_site username site_config r) = Returns (true, u).
Proof.
  intros username site_config r u response Hmethod Hnone Hfmt Hget Hstatus.
  unfold check_site. rewrite Hmethod.
  rewrite check_with_requests_result, Hfmt, Hget.
  unfold requests_verdict. rewrite Hstatus, Hnone. simpl.
  destruct (str_in "api.github.com" u); reflexivity.
Qed.

Lemma C3_witness :
  result (check_site "octocat" GitHub
            (answering 200 "{ login: octocat }"
               "https://api.github.com/users/octocat" timing_out))
  = Returns (true, "https://api.github.com/users/octocat").
Proof.
  apply (C3_requests_200_found "octocat" GitHub _
           "https://api.github.com/users/octocat"
           {| status_code := 200; text := "{ login: octocat }";
              response_url := "https://api.github.com/users/octocat" |}).
  - reflexivity.
  - reflexivity.
  - reflexivity.
  - reflexivity.
  - reflexivity.
Defined.

(** C8, as stated, fails where Playwright hands back no response: the guard
    [response and response.status == 200] is false and the probe answers
    "Not Found", not "Error checking". *)
Lemma C8_counterexample :
  let b := showing None "<html></html>" "https://x.com/alice/" in
  exists o,
    result (rendered_fetch "alice" Twitter b) = Returns o
    /\ status o = None
    /\ failure_hit (body o) (get_default (failure_indicators Twitter) []) = false
    /\ success_hit "alice" (body o) (get_default (success_indicators Twitter) [])
       = Returns false
    /\ result (check_with_playwright "alice" Twitter b) = Returns Not_Found
    /\ result (check_with_playwright "alice" Twitter b) <> Returns Error_checking.
Proof.
  cbv zeta. eexists. split; [reflexivity |]. simpl.
  repeat split; try reflexivity. vm_compute. discriminate.
Qed.

(** C8 (amended): when the fetch raised nothing and no indicator matched, a
    status other than 200 makes the probe answer "Not Found", and so does a
    missing status. *)
Theorem C8_not_200_not_found :
  (forall username site_config b o,
      result (rendered_fetch username site_config b) = Returns o ->
      failure_hit (body o) (get_default (failure_indicators site_config) []) = false ->
      success_hit username (body o) (get_default (success_indicators site_config) [])
        = Returns false ->
      status o <> Some 200%Z ->
      result (check_with_playwright username site_config b) = Returns Not_Found)
  /\
  (forall username site_config r u response,
      format (url site_config) username = Returns u ->
      requests_get r u = Returns response ->
      status_code response <> 200%Z ->
      result (check_with_requests username site_config r) = Returns Not_Found).
Proof.
  split.
  - intros username site_config b o Hfetch Hfail Hsucc Hstatus.
    rewrite check_with_playwright_result, Hfetch.
    unfold playwright_verdict. rewrite Hfail, Hsucc.
    assert (H200 : status_is_200 (status o) = false).
    { destruct (status o) as [code |]; [| reflexivity]. simpl.
      apply Z.eqb_neq. intros ->. now apply Hstatus. }
    now rewrite H200.
  - intros username site_config r u response Hfmt Hget Hstatus.
    rewrite check_with_requests_result, Hfmt, Hget.
    unfold requests_verdict. apply Z.eqb_neq in Hstatus. rewrite Hstatus.
    destruct (str_in "api.github.com" u); reflexivity.
Qed.

Lemma C8_witness :
  result (check_with_playwright "alice" Twitter
            (showing (Some 404%Z) "<html></html>" "https://x.com/alice/"))
  = Returns Not_Found
  /\
  result (check_with_requests "alice" LinkedIn
            (answering 999 "" "https://www.linkedin.com/in/alice/" timing_out))
  = Returns Not_Found.
Proof.
  split.
  - apply (proj1 C8_not_200_not_found "alice" Twitter _
             {| request_url := "https://x.com/alice/"; status := Some 404%Z;
                body := lower "<html></html>";
                final_url := "https://x.com/alice/" |}).
    + reflexivity.
    + reflexivity.
    + reflexivity.
    + discriminate.
  - apply (proj2 C8_not_200_not_found "alice" LinkedIn _
             "https://www.linkedin.com/in/alice/"
             {| status_code := 999; text := "";
                response_url := "https://www.linkedin.com/in/alice/" |}).
    + reflexivity.
    + reflexivity.
    + discriminate.
Defined.

(** C10: on an address with "api.github.com" the requests probe answers by
    the status alone: found at [url] on 200, "Not Found" on any other
    status, whatever indicators the site carries. *)
Theorem C10_github_status_only :
  forall username template m successes failures r u response,
    String.eqb (get_default m "requests") "playwright" = false ->
    format template username = Returns u ->
    str_in "api.github.com" u = true ->
    requests_get r u = Returns response ->
    let site_config :=
      {| url := template; method := m;
         success_indicators := successes; failure_indicators := failures |} in
    (status_code response = 200%Z ->
     result (check_site username site_config r) = Returns (true, u))
    /\ (status_code response <> 200%Z ->
        result (check_site username site_config r) = Returns Not_Found)
    /\ (result (check_site username site_config r) = Returns (true, u)
        <-> status_code response = 200%Z).
Proof.
  intros username template m successes failures r u response
    Hmethod Hfmt Hgit Hget site_config.
  assert (Hres : result (check_site username site_config r)
                 = Returns (Z.eqb (status_code response) 200,
                            if Z.eqb (status_code response) 200
                            then u else "Not Found")).
  { unfold check_site, site_config. simpl method. rewrite Hmethod.
    rewrite check_with_requests_result. simpl url. rewrite Hfmt, Hget.
    unfold requests_verdict. now rewrite Hgit. }
  rewrite Hres.
  destruct (Z.eqb_spec (status_code response) 200) as [Heq | Hne].
  - repeat split; auto. intros Hne. contradiction.
  - repeat split; intros; try contradiction; try discriminate; reflexivity.
Qed.

Lemma C10_witness :
  (result (check_site "octocat" api_with_marker
             (answering 200 "message: Not Found"
                "https://api.github.com/users/octocat" timing_out))
   = Returns (true, "https://api.github.com/users/octocat"))
  /\
  (result (check_site "nobody" GitHub
             (answering 404 "message: Not Found"
                "https://api.github.com/users/nobody" timing_out))
   = Returns Not_Found).
Proof.
  split.
  - apply (C10_github_status_only "octocat" "https://api.github.com/users/{}"
             (Some "requests") (Some []) (Some ["Not Found"])
             (answering 200 "message: Not Found"
                "https://api.github.com/users/octocat" timing_out)
             "https://api.github.com/users/octocat"
             {| status_code := 200; text := "message: Not Found";
                response_url := "https://api.github.com/users/octocat" |}
             eq_refl eq_refl eq_refl eq_refl).
    reflexivity.
  - apply (C10_github_status_only "nobody" "https://api.github.com/users/{}"
             (Some "requests") (Some []) (Some [])
             (answering 404 "message: Not Found"
                "https://api.github.com/users/nobody" timing_out)
             "https://api.github.com/users/nobody"
             {| status_code := 404; text := "message: Not Found";
                response_url := "https://api.github.com/users/nobody" |}
             eq_refl eq_refl eq_refl eq_refl).
    discriminate.
Defined.

(** ** Dictionaries *)

Section Dict.
Context {V : Type}.
Implicit Types (d a b : dict V) (k : string) (v : V).

Lemma dict_get_None d k : dict_get d k = None <-> ~ In k (keys d).
Proof.
  induction d as [| [k' v'] rest IH]; simpl.
  - tauto.
  - destruct (String.eqb_spec k k') as [-> | Hne].
    + split; [discriminate | intros H; exfalso; apply H; now left].
    + rewrite IH. split.
      * intros Hn [Heq | Hin]; [now apply Hne | now apply Hn].
      * intros Hn Hin. apply Hn. now right.
Qed.

Lemma dict_get_In d k : In k (keys d) <-> exists v, dict_get d k = Some v.
Proof.
  destruct (dict_get d k) as [v |] eqn:Hget.
  - split; [intros _; now exists v |].
    intros _. destruct (in_dec string_dec k (keys d)) as [Hin | Hn]; [exact Hin |].
    apply dict_get_None in Hn. congruence.
  - apply dict_get_None in Hget. split; [contradiction | intros [v Hv]; discriminate].
Qed.

Lemma dict_get_set d k v k' :
  dict_get (dict_set k v d) k' = if String.eqb k' k then Some v else dict_get d k'.
Proof.
  induction d as [| [k0 v0] rest IH]; simpl.
  - reflexivity.
  - destruct (String.eqb_spec k k0) as [-> | Hne]; simpl.
    + destruct (String.eqb_spec k' k0); reflexivity.
    + rewrite IH.
      destruct (String.eqb_spec k' k0) as [-> | Hne'];
        destruct (String.eqb_spec k0 k); congruence.
Qed.

(** Writing under a key the dictionary lacks adds the entry at the end. *)
Lemma dict_set_fresh d k v :
  ~ In k (keys d) -> dict_set k v d = (d ++ [(k, v)])%list.
Proof.
  induction d as [| [k0 v0] rest IH]; simpl; intros Hn.
  - reflexivity.
  - destruct (String.eqb_spec k k0) as [-> | Hne].
    + exfalso. apply Hn. now left.
    + f_equal. apply IH. intros Hin. apply Hn. now right.
Qed.

(** Writing under a key the dictionary has leaves its keys as they are. *)
Lemma keys_dict_set_present d k v :
  In k (keys d) -> keys (dict_set k v d) = keys d.
Proof.
  induction d as [| [k0 v0] rest IH]; simpl; intros Hin.
  - contradiction.
  - destruct (String.eqb_spec k k0) as [-> | Hne]; simpl.
    + reflexivity.
    + f_equal. apply IH. destruct Hin as [Heq | Hin]; [congruence | exact Hin].
Qed.

Lemma NoDup_keys_dict_set d k v :
  NoDup (keys d) -> NoDup (keys (dict_set k v d)).
Proof.
  intros Hnd.
  destruct (in_dec string_dec k (keys d)) as [Hin | Hn].
  - now rewrite keys_dict_set_present.
  - rewrite (dict_set_fresh _ _ _ Hn). unfold keys. rewrite map_app. simpl.
    apply NoDup_app; [exact Hnd | repeat constructor; intros [] |].
    intros x Hx [<- | []]. now apply Hn.
Qed.

Lemma NoDup_keys_dict_merge b : forall a,
  NoDup (keys a) -> NoDup (keys (dict_merge a b)).
Proof.
  unfold dict_merge.
  induction b as [| [k v] rest IH]; simpl; intros a Hnd.
  - exact Hnd.
  - apply IH. now apply NoDup_keys_dict_set.
Qed.

(** [{**a, **b}[k]] is [b[k]] where [b] has the key, and [a[k]] elsewhere. *)
Lemma dict_get_merge b : forall a k,
  NoDup (keys b) ->
  dict_get (dict_merge a b) k =
  match dict_get b k with
  | Some v => Some v
  | None => dict_get a k
  end.
Proof.
  unfold dict_merge.
  induction b as [| [k0 v0] rest IH]; simpl; intros a k Hnd.
  - reflexivity.
  - inversion Hnd as [| ? ? Hfresh Hrest]; subst.
    rewrite (IH _ _ Hrest), dict_get_set.
    destruct (String.eqb_spec k k0) as [-> | Hne]; [| reflexivity].
    apply dict_get_None in Hfresh. now rewrite Hfresh.
Qed.

Lemma keys_dict_merge a b k :
  NoDup (keys b) ->
  In k (keys (dict_merge a b)) <-> In k (keys a) \/ In k (keys b).
Proof.
  intros Hnd. rewrite !dict_get_In, (dict_get_merge b a k Hnd).
  destruct (dict_get b k) as [v |].
  - split; [intros _; right; now exists v | intros _; now exists v].
  - split; [intros H; now left | intros [H | [v Hv]]; [exact H | discriminate]].
Qed.
End Dict.

(** C6: the sites of category "3" are the merge of those of "1" and "2";
    and a merge of two dictionaries answers a name with the later
    dictionary's entry where it has one and with the earlier one's
    elsewhere, holds the names of both and no others, and holds each of them
    once. *)
Theorem C6_all_sites_is_the_merge :
  sites_of CATEGORIES "3"
    = dict_merge (sites_of CATEGORIES "1") (sites_of CATEGORIES "2")
  /\ dict_mem "3" CATEGORIES = true
  /\ forall (a b : dict SiteConfig),
       NoDup (keys a) -> NoDup (keys b) ->
       (forall k, dict_get (dict_merge a b) k
                  = match dict_get b k with
                    | Some v => Some v
                    | None => dict_get a k
                    end)
       /\ (forall k, In k (keys (dict_merge a b)) <-> In k (keys a) \/ In k (keys b))
       /\ (forall k, In k (keys a) \/ In k (keys b) ->
                     count_occ string_dec (keys (dict_merge a b)) k = 1).
Proof.
  split; [reflexivity |]. split; [reflexivity |].
  intros a b Ha Hb. split; [| split].
  - intros k. now apply dict_get_merge.
  - intros k. now apply keys_dict_merge.
  - intros k Hk. apply NoDup_count_occ'.
    + now apply NoDup_keys_dict_merge.
    + now apply keys_dict_merge.
Qed.

Lemma C6_witness :
  dict_get (dict_merge two_mirrors tech_sites) "GitHub" = Some GitHub
  /\ keys (dict_merge two_mirrors tech_sites) = ["GitHub"; "Facebook"; "LinkedIn"]
  /\ count_occ string_dec (keys (dict_merge two_mirrors tech_sites)) "GitHub" = 1.
Proof.
  assert (Ha : NoDup (keys two_mirrors)).
  { repeat constructor; simpl; intuition discriminate. }
  assert (Hb : NoDup (keys tech_sites)).
  { repeat constructor; simpl; intuition discriminate. }
  destruct (proj2 (proj2 C6_all_sites_is_the_merge) two_mirrors tech_sites Ha Hb)
    as [Hget [_ Hcount]].
  split; [| split].
  - rewrite Hget. reflexivity.
  - reflexivity.
  - apply Hcount. left. simpl. auto.
Defined.

(** ** The batch *)

Lemma result_check_loop_cons username site_name site_config rest world now results :
  result (check_loop username ((site_name, site_config) :: rest) world now results) =
  match result (check_site username site_config (world now)) with
  | Returns r =>
      result (check_loop username rest world (S now) (dict_set site_name r results))
  | Raises e => Raises e
  end.
Proof.
  cbn [check_loop]. rewrite result_bind.
  destruct (result (check_site username site_config (world now))); [| reflexivity].
  cbv beta zeta. rewrite result_bind. reflexivity.
Qed.

(** The Playwright probe returns whatever the browser does. *)
Lemma check_with_playwright_returns username site_config b :
  exists r, result (check_with_playwright username site_config b) = Returns r.
Proof.
  rewrite check_with_playwright_result.
  destruct (result (rendered_fetch username site_config b)) as [o |]; [| eauto].
  destruct (playwright_verdict username site_config o); eauto.
Qed.

Lemma check_site_returns username site_config r :
  formats username (url site_config) ->
  (forall u e, requests_get r u = Raises e -> is_RequestException e = true) ->
  exists v, result (check_site username site_config r) = Returns v.
Proof.
  intros [u Hfmt] Hnet. unfold check_site.
  destruct (String.eqb _ "playwright").
  - apply check_with_playwright_returns.
  - rewrite check_with_requests_result, Hfmt.
    destruct (requests_get r u) as [response | e] eqn:Hget; [eauto |].
    rewrite (Hnet _ _ Hget). eauto.
Qed.

Lemma per_site_keys username world now items entries :
  per_site username world now items entries -> keys entries = keys items.
Proof.
  induction 1; simpl; [reflexivity | now f_equal].
Qed.

Lemma check_loop_returns username world items : forall now results,
  transport_errors_only world ->
  addresses_format username items ->
  NoDup (keys results ++ keys items) ->
  exists entries,
    result (check_loop username items world now results)
      = Returns (results ++ entries)%list
    /\ per_site username world now items entries.
Proof.
  induction items as [| [site_name site_config] rest IH];
    intros now results Hnet Hfmt Hnd.
  - exists []. split; [simpl; now rewrite app_nil_r | constructor].
  - inversion Hfmt as [| ? ? Hhead Hrest]; subst. simpl in Hhead.
    destruct (check_site_returns username site_config (world now) Hhead (Hnet now))
      as [r Hr].
    rewrite result_check_loop_cons, Hr.
    assert (Hfresh : ~ In site_name (keys results)).
    { intros Hin. simpl in Hnd. apply NoDup_remove_2 in Hnd.
      apply Hnd. apply in_or_app. now left. }
    rewrite (dict_set_fresh _ _ r Hfresh).
    destruct (IH (S now) (results ++ [(site_name, r)])%list Hnet Hrest)
      as [entries [Hloop Hper]].
    { unfold keys in *. rewrite map_app. simpl in *.
      rewrite <- app_assoc. exact Hnd. }
    exists ((site_name, r) :: entries). split.
    + rewrite Hloop, <- app_assoc. reflexivity.
    + now constructor.
Qed.

Lemma check_username_returns username sites world now :
  transport_errors_only world ->
  addresses_format username sites ->
  NoDup (keys sites) ->
  exists results,
    result (check_username username sites world now) = Returns results
    /\ per_site username world now sites results.
Proof.
  intros Hnet Hfmt Hnd. unfold check_username.
  destruct (check_loop_returns username world sites now [] Hnet Hfmt Hnd)
    as [entries [Hloop Hper]].
  exists entries. now split.
Qed.

(** The catalogue: every address is a well-formed template. *)
Lemma catalogue_addresses_format username choice :
  addresses_format username (sites_of CATEGORIES choice).
Proof.
  unfold sites_of, CATEGORIES. simpl.
  repeat (destruct (String.eqb choice _); simpl);
    repeat constructor; simpl; eexists; reflexivity.
Qed.

Lemma catalogue_keys_NoDup choice : NoDup (keys (sites_of CATEGORIES choice)).
Proof.
  unfold sites_of, CATEGORIES. simpl.
  repeat (destruct (String.eqb choice _); simpl);
    repeat constructor; simpl; intuition discriminate.
Qed.

(** C7: for every username and every category of the catalogue, on a network
    that fails with transport errors only, [check_username] returns a
    dictionary with one entry per site of the category, in the category's
    order and without repetition, the entry of a site being what its probe
    returned. *)
Theorem C7_one_result_per_site :
  forall username choice world now,
    transport_errors_only world ->
    exists results,
      result (check_username username (sites_of CATEGORIES choice) world now)
        = Returns results
      /\ per_site username world now (sites_of CATEGORIES choice) results
      /\ keys results = keys (sites_of CATEGORIES choice)
      /\ NoDup (keys results)
      /\ length results = length (sites_of CATEGORIES choice).
Proof.
  intros username choice world now Hnet.
  destruct (check_username_returns username (sites_of CATEGORIES choice) world now
              Hnet (catalogue_addresses_format username choice)
              (catalogue_keys_NoDup choice)) as [results [Hres Hper]].
  exists results. pose proof (per_site_keys _ _ _ _ _ Hper) as Hkeys.
  repeat split; auto.
  - rewrite Hkeys. apply catalogue_keys_NoDup.
  - unfold keys in Hkeys. rewrite <- (length_map fst results), Hkeys.
    apply length_map.
Qed.

Lemma C7_witness :
  exists results,
    result (check_username "alice" (sites_of CATEGORIES "3") dark_world 0)
      = Returns results
    /\ per_site "alice" dark_world 0 (sites_of CATEGORIES "3") results
    /\ keys results = keys (sites_of CATEGORIES "3")
    /\ NoDup (keys results)
    /\ length results = length (sites_of CATEGORIES "3").
Proof.
  apply (C7_one_result_per_site "alice" "3" dark_world 0).
  intros now u e H. simpl in H. injection H as <-. reflexivity.
Defined.

Lemma result_main_loop_cons username rest sites world now :
  result (main_loop (username :: rest) sites world now) =
  match result (check_username username sites world now) with
  | Returns results =>
      match result (main_loop rest sites world (now + length sites)) with
      | Returns reports =>
          Returns ({| report_username := username;
                      report_results := results;
                      report_score :=
                        possibility_score (found_count results) (total_sites results) |}
                   :: reports)
      | Raises e => Raises e
      end
  | Raises e => Raises e
  end.
Proof.
  cbn [main_loop]. rewrite result_bind.
  destruct (result (check_username username sites world now)); [| reflexivity].
  cbv beta zeta. rewrite result_bind.
  destruct (result (main_loop rest sites world (now + length sites))); reflexivity.
Qed.

Lemma main_loop_returns usernames sites world : forall now,
  transport_errors_only world ->
  NoDup (keys sites) ->
  (forall username, In username usernames -> addresses_format username sites) ->
  exists reports,
    result (main_loop usernames sites world now) = Returns reports
    /\ map report_username reports = usernames
    /\ Forall (fun report => keys (report_results report) = keys sites) reports.
Proof.
  induction usernames as [| username rest IH]; intros now Hnet Hnd Hfmt.
  - exists []. repeat split; constructor.
  - destruct (check_username_returns username sites world now Hnet
                (Hfmt username (or_introl eq_refl)) Hnd) as [results [Hres Hper]].
    destruct (IH (now + length sites) Hnet Hnd) as [reports [Hloop [Hnames Hall]]].
    { intros u Hu. apply Hfmt. now right. }
    rewrite result_main_loop_cons, Hres, Hloop.
    eexists. split; [reflexivity |]. split.
    + simpl. now rewrite Hnames.
    + constructor; [| exact Hall]. simpl. eapply per_site_keys; eauto.
Qed.



(** ** The browser session *)






(** The matching of lines 113-146 calls nothing: the log of the Playwright
    probe is the log of its fetch. *)
Lemma calls_check_with_playwright username site_config b :
  calls (check_with_playwright username site_config b)
  = calls (rendered_fetch username site_config b).
Proof.
  unfold check_with_playwright, rendered_fetch, setup_browser_context,
    with_sync_playwright.
  destruct (sync_playwright_enter b); [| reflexivity].
  destruct (chromium_launch b); [| reflexivity].
  destruct (browser_new_context b); [| reflexivity].
  destruct (context_new_page b); [| reflexivity].
  destruct (format (url site_config) username) as [u |]; [| reflexivity].
  simpl.
  destruct (page_goto b u) as [response |]; [| reflexivity].
  destruct (page_wait_for_timeout b u); [| reflexivity].
  destruct (page_content b u) as [content |]; [| reflexivity].
  destruct (browser_close b u); [| reflexivity].
  simpl.
  destruct (failure_hit _ _); [reflexivity |].
  destruct (success_hit _ _ _) as [[|] |]; try reflexivity.
  simpl.
  destruct (status_is_200 response && platform_check _ _ _); reflexivity.
Qed.






(** The explicit [browser.close()] of line 111 is reached on the path where
    every call completes; when the navigation times out the exit of the
    [with] block is the only teardown the program runs. *)
Example calls_when_all_is_well :
  calls (check_with_playwright "alice" Instagram
           (showing (Some 200%Z) "profilePage_" "https://www.instagram.com/alice/"))
  = [Start; Launch; NewContext; NewPage; Goto "https://www.instagram.com/alice/";
     Wait; Content; Close; Stop].
Proof. reflexivity. Qed.

Example calls_when_navigation_times_out :
  calls (check_with_playwright "alice" Instagram timing_out)
  = [Start; Launch; NewContext; NewPage; Stop].
Proof. reflexivity. Qed.

(** ** The score *)

Lemma all_below_spec (P : nat -> Prop) n :
  all_below P n -> forall i, i < n -> P i.
Proof.
  induction n as [| m IH]; simpl; intros H i Hi; [lia |].
  destruct H as [Hm HPm].
  destruct (Nat.eq_dec i m) as [-> | Hne]; [exact HPm | apply IH; [exact Hm | lia]].
Qed.

(** Below 32 sites no quotient [10000 * found / total] lies halfway between
    two integers, so the rounding has one answer; it is checked case by
    case on the floats. *)
Lemma score_below_32 :
  all_below (fun total => all_below (fun found => score_as_specified found (S total))
                            (S (S total))) 31.
Proof.
  cbn [all_below]. unfold score_as_specified.
  repeat split; vm_compute; reflexivity.
Qed.

Lemma found_count_le results : found_count results <= total_sites results.
Proof.
  unfold found_count, total_sites, values.
  rewrite <- (length_map snd results). apply filter_length_le.
Qed.

(** If the loop returns, it has added one entry per site. *)
Lemma check_loop_length username world items : forall now results out,
  NoDup (keys results ++ keys items) ->
  result (check_loop username items world now results) = Returns out ->
  length out = length results + length items.
Proof.
  induction items as [| [site_name site_config] rest IH];
    intros now results out Hnd Hout.
  - simpl in Hout. injection Hout as <-. simpl. lia.
  - rewrite result_check_loop_cons in Hout.
    destruct (result (check_site username site_config (world now))) as [r |];
      [| discriminate].
    assert (Hfresh : ~ In site_name (keys results)).
    { intros Hin. simpl in Hnd. apply NoDup_remove_2 in Hnd.
      apply Hnd. apply in_or_app. now left. }
    rewrite (dict_set_fresh _ _ r Hfresh) in Hout.
    apply IH in Hout.
    + rewrite Hout, length_app. simpl. lia.
    + unfold keys in *. rewrite map_app. simpl in *.
      rewrite <- app_assoc. exact Hnd.
Qed.

Lemma catalogue_size choice : length (sites_of CATEGORIES choice) <= 6.
Proof.
  unfold sites_of, CATEGORIES. simpl.
  repeat (destruct (String.eqb choice _); simpl); lia.
Qed.

(** The score of line 235 for [found] out of [total], with 1 to 31 sites:
    the float of the two-decimal rounding of [100 * found / total]. *)
Lemma possibility_score_rounds found total :
  0 < total < 32 -> found <= total ->
  exists n,
    possibility_score found total = Float (decimal2 n)
    /\ nearest_hundredth found total n
    /\ (0 <= n <= 10000)%Z
    /\ PrimFloat.leb 0%float (decimal2 n) = true
    /\ PrimFloat.leb (decimal2 n) 100%float = true.
Proof.
  intros [Hpos Hlt] Hle.
  destruct total as [| total]; [lia |].
  assert (Hspec : score_as_specified found (S total)).
  { apply (all_below_spec _ _ (all_below_spec _ _ score_below_32 total
             ltac:(lia))). lia. }
  destruct Hspec as [Hscore Hok].
  exists (hundredths found (S total)).
  unfold hundredths_ok in Hok.
  repeat (apply andb_prop in Hok; destruct Hok as [Hok ?]).
  split; [exact Hscore |]. unfold nearest_hundredth.
  split; [now apply Z.ltb_lt |].
  split; [split; now apply Z.leb_le |].
  split; assumption.
Qed.

(** Line 233 counts the entries whose first component is [True]. *)
Lemma found_count_counts results :
  found_count results = length (filter (fun entry => fst (snd entry)) results).
Proof.
  unfold found_count, values.
  induction results as [| [site [status message]] rest IH]; [reflexivity |].
  simpl. destruct status; simpl; now rewrite IH.
Qed.

(** Every report carries the score of its own results. *)
Lemma main_loop_scores usernames sites world : forall now reports,
  result (main_loop usernames sites world now) = Returns reports ->
  Forall (fun report =>
            report_score report
            = possibility_score (found_count (report_results report))
                                (total_sites (report_results report))) reports.
Proof.
  induction usernames as [| username rest IH]; intros now reports Hret.
  - simpl in Hret. injection Hret as <-. constructor.
  - rewrite result_main_loop_cons in Hret.
    destruct (result (check_username username sites world now)) as [results |];
      [| discriminate].
    destruct (result (main_loop rest sites world (now + length sites)))
      as [more |] eqn:Hrest; [| discriminate].
    injection Hret as <-. constructor; [reflexivity | eapply IH; eauto].
Qed.

(** Every report holds the results [check_username] returned for its
    username. *)
Lemma main_loop_results usernames sites world : forall now reports,
  result (main_loop usernames sites world now) = Returns reports ->
  Forall (fun report =>
            exists moment,
              result (check_username (report_username report) sites world moment)
              = Returns (report_results report)) reports.
Proof.
  induction usernames as [| username rest IH]; intros now reports Hret.
  - simpl in Hret. injection Hret as <-. constructor.
  - rewrite result_main_loop_cons in Hret.
    destruct (result (check_username username sites world now)) as [results |]
      eqn:Hres; [| discriminate].
    destruct (result (main_loop rest sites world (now + length sites)))
      as [more |] eqn:Hrest; [| discriminate].
    injection Hret as <-. constructor; [now exists now | eapply IH; eauto].
Qed.

(** C5: in every report the loop of [main] returns, the score is the int 0
    when the results have no entry; with 1 to 31 entries it is the float
    that stands for [100 * found / total] rounded to two decimals, [found]
    being the number of entries marked found and [total] the number of
    entries, and it lies between 0 and 100; and a report over a category of
    the catalogue has at most six entries. *)
Theorem C5_possibility_score :
  forall usernames sites world now reports report,
    result (main_loop usernames sites world now) = Returns reports ->
    In report reports ->
    let found :=
      length (filter (fun entry => fst (snd entry)) (report_results report)) in
    let total := length (report_results report) in
    (total = 0 -> report_score report = Int 0)
    /\ (0 < total < 32 ->
        exists n,
          report_score report = Float (decimal2 n)
          /\ nearest_hundredth found total n
          /\ (0 <= n <= 10000)%Z
          /\ PrimFloat.leb 0%float (decimal2 n) = true
          /\ PrimFloat.leb (decimal2 n) 100%float = true)
    /\ (forall choice, sites = sites_of CATEGORIES choice -> total <= 6).
Proof.
  intros usernames sites world now reports report Hret Hin found total.
  pose proof (main_loop_scores _ _ _ _ _ Hret) as Hscores.
  pose proof (main_loop_results _ _ _ _ _ Hret) as Hresults.
  rewrite Forall_forall in Hscores, Hresults.
  specialize (Hscores report Hin). destruct (Hresults report Hin) as [moment Hrun].
  rewrite found_count_counts in Hscores.
  unfold total_sites in Hscores. fold found total in Hscores.
  assert (Hle : found <= total) by apply filter_length_le.
  split; [| split].
  - intros Hzero. rewrite Hscores, Hzero. reflexivity.
  - intros Hbound. rewrite Hscores.
    now apply possibility_score_rounds.
  - intros choice ->. unfold check_username in Hrun.
    apply check_loop_length in Hrun; [| apply catalogue_keys_NoDup].
    unfold total. rewrite Hrun. simpl. apply catalogue_size.
Qed.

Lemma C5_witness :
  exists n,
    report_score alice_report = Float (decimal2 n)
    /\ nearest_hundredth
         (length (filter (fun entry => fst (snd entry)) (report_results alice_report)))
         (length (report_results alice_report)) n
    /\ (0 <= n <= 10000)%Z
    /\ PrimFloat.leb 0%float (decimal2 n) = true
    /\ PrimFloat.leb (decimal2 n) 100%float = true.
Proof.
  refine (proj1 (proj2 (C5_possibility_score ["alice"] three_sites three_sites_world 0
                          [alice_report] alice_report _ _)) _).
  - vm_compute. reflexivity.
  - left. reflexivity.
  - simpl. lia.
Defined.

(** One found in three is 33.33, two in three 66.67, one in six 16.67. *)
Example score_one_in_three :
  possibility_score 1 3 = Float (decimal2 3333)
  /\ possibility_score 2 3 = Float (decimal2 6667)
  /\ possibility_score 1 6 = Float (decimal2 1667)
  /\ possibility_score 3 3 = Float 100%float.
Proof. repeat split; vm_compute; reflexivity. Qed.

(** ** A whole run *)

Example run_three_sites :
  result (main_loop ["alice"] three_sites three_sites_world 0)
  = Returns
      [ {| report_username := "alice";
           report_results :=
             [ ("A", (true, "https://api.example.org/users/alice"));
               ("B", Not_Found);
               ("C", Error_checking) ];
           report_score := Float (decimal2 3333) |} ].
Proof. vm_compute. reflexivity. Qed.

(** * Further properties of the code *)

(** ** What a probe can answer *)

(** X1: A probe that returns answers "Not Found", "Error checking", or found
    together with the address built from the site's template. *)
Theorem probe_answers :
  forall username site_config r v,
    result (check_site username site_config r) = Returns v ->
    v = Not_Found \/ v = Error_checking
    \/ exists u, format (url site_config) username = Returns u /\ v = (true, u).
Proof.
  intros username site_config r v. unfold check_site.
  destruct (String.eqb _ "playwright").
  - rewrite check_with_playwright_result.
    destruct (result (rendered_fetch username site_config (chromium r)))
      as [o |] eqn:Hfetch.
    + destruct (rendered_fetch_returns _ _ _ _ Hfetch)
        as (u & response & content & Hu & _ & _ & ->).
      unfold playwright_verdict. simpl.
      destruct (failure_hit _ _); [intros [= <-]; auto |].
      destruct (success_hit _ _ _) as [[|] |].
      * intros [= <-]. right. right. eauto.
      * destruct (status_is_200 response && platform_check _ _ _);
          intros [= <-]; [right; right; eauto | auto].
      * intros [= <-]. auto.
    + intros [= <-]. auto.
  - rewrite check_with_requests_result.
    destruct (format (url site_config) username) as [u | e].
    + destruct (requests_get r u) as [response | e].
      * unfold requests_verdict.
        destruct (str_in "api.github.com" u).
        -- destruct (Z.eqb (status_code response) 200);
             intros [= <-]; [right; right; eauto | auto].
        -- destruct (Z.eqb (status_code response) 200).
           ++ destruct (failure_hit _ _); intros [= <-]; [auto | right; right; eauto].
           ++ intros [= <-]. auto.
      * destruct (is_RequestException e); [intros [= <-]; auto | discriminate].
    + destruct (is_RequestException e); [intros [= <-]; auto | discriminate].
Qed.

Lemma probe_answers_witness :
  (true, "https://api.github.com/users/octocat") = Not_Found
  \/ (true, "https://api.github.com/users/octocat") = Error_checking
  \/ exists u, format (url GitHub) "octocat" = Returns u
               /\ (true, "https://api.github.com/users/octocat") = (true, u).
Proof.
  apply (probe_answers "octocat" GitHub (bright_world 0)).
  reflexivity.
Defined.

(** ** Exceptions the requests probe does not catch *)

Lemma calls_check_loop_cons username site_name site_config rest world now results :
  calls (check_loop username ((site_name, site_config) :: rest) world now results) =
  match result (check_site username site_config (world now)) with
  | Returns r =>
      (calls (check_site username site_config (world now)) ++ Sleep
         :: calls (check_loop username rest world (S now)
                     (dict_set site_name r results)))%list
  | Raises _ => calls (check_site username site_config (world now))
  end.
Proof.
  cbn [check_loop]. rewrite calls_bind.
  destruct (result (check_site username site_config (world now))); [| reflexivity].
  cbv beta zeta. rewrite calls_bind. reflexivity.
Qed.



(** ** What a probe calls *)

(** X3: The requests probe makes one GET, to the address built from the
    template, and no second attempt: its log is that GET when it completed
    and is empty otherwise. *)
Theorem requests_probe_calls :
  forall username site_config r,
    calls (check_with_requests username site_config r) =
    match format (url site_config) username with
    | Returns u =>
        match requests_get r u with
        | Returns _ => [Get u]
        | Raises _ => []
        end
    | Raises _ => []
    end.
Proof.
  intros username site_config r. unfold check_with_requests.
  destruct (format (url site_config) username) as [u | e]; simpl.
  - destruct (requests_get r u) as [response | e]; simpl.
    + destruct (str_in "api.github.com" u); [reflexivity |].
      destruct (Z.eqb (status_code response) 200); [| reflexivity].
      destruct (failure_hit _ _); reflexivity.
    + destruct (is_RequestException e); reflexivity.
  - destruct (is_RequestException e); reflexivity.
Qed.

(** One path through the fetch: the log is known, the driver calls are taken
    off its ends and the rest is compared with the script. *)
Ltac settle_path :=
  simpl; split;
  [ right;
    match goal with
    | |- context [@eq (list call) (Start :: ?l)%list] =>
        exists (removelast l); split; [reflexivity |]
    end;
    simpl;
    try match goal with
        | |- context [format ?t ?a] => destruct (format t a)
        end;
    first [ eexists; reflexivity
          | left; reflexivity
          | right; eexists; reflexivity ]
  | split;
    [ first [ solve [intros _; eexists; reflexivity]
            | solve [intros H; simpl in H; intuition discriminate] ]
    | first [ solve [intros [o Ho]; discriminate]
            | solve [intros _; simpl; auto 12] ] ] ].

(** X4: The Playwright probe makes its browser calls in one order - launch,
    context, page, navigation to the address built from the template, wait,
    content, close - up to the first call that raises, between the start and
    the stop of the driver; without an address there is no navigation.
    [browser.close()] completes exactly when the fetch returned. *)
Theorem playwright_probe_calls :
  forall username site_config b,
    (calls (check_with_playwright username site_config b) = []
     \/ exists done,
          calls (check_with_playwright username site_config b)
            = (Start :: done ++ [Stop])%list
          /\ match format (url site_config) username with
             | Returns u => initial_part done (browser_script u)
             | Raises _ => done = [Launch; NewContext; NewPage]
                           \/ initial_part done [Launch; NewContext]
             end)
    /\ (In Close (calls (check_with_playwright username site_config b))
        <-> exists o, result (rendered_fetch username site_config b) = Returns o).
Proof.
  intros username site_config b.
  rewrite calls_check_with_playwright.
  unfold rendered_fetch, setup_browser_context, with_sync_playwright,
    initial_part, browser_script.
  destruct (sync_playwright_enter b).
  2:{ simpl. split; [now left |].
      split; [intros [] | intros [o Ho]; discriminate]. }
  destruct (chromium_launch b); [| settle_path].
  destruct (browser_new_context b); [| settle_path].
  destruct (context_new_page b); [| settle_path].
  destruct (format (url site_config) username) as [u |] eqn:Hu;
    [| simpl; split;
       [ right; exists [Launch; NewContext; NewPage]; auto
       | split; [intros H; simpl in H; intuition discriminate
                | intros [o Ho]; discriminate] ] ].
  simpl.
  destruct (page_goto b u) as [response |]; [| settle_path].
  destruct (page_wait_for_timeout b u); [| settle_path].
  destruct (page_content b u) as [content |]; [| settle_path].
  destruct (browser_close b u); settle_path.
Qed.

(** ** The pauses between probes *)

Lemma sleeps_app (a b : list call) : sleeps (a ++ b) = sleeps a + sleeps b.
Proof. unfold sleeps. now rewrite filter_app, length_app. Qed.

Lemma check_with_requests_never_sleeps username site_config r :
  sleeps (calls (check_with_requests username site_config r)) = 0.
Proof.
  unfold check_with_requests.
  destruct (format (url site_config) username) as [u | e]; simpl.
  - destruct (requests_get r u) as [response | e]; simpl.
    + destruct (str_in "api.github.com" u); [reflexivity |].
      destruct (Z.eqb (status_code response) 200); [| reflexivity].
      destruct (failure_hit _ _); reflexivity.
    + destruct (is_RequestException e); reflexivity.
  - destruct (is_RequestException e); reflexivity.
Qed.

Lemma check_with_playwright_never_sleeps username site_config b :
  sleeps (calls (check_with_playwright username site_config b)) = 0.
Proof.
  rewrite calls_check_with_playwright.
  unfold rendered_fetch, setup_browser_context, with_sync_playwright.
  destruct (sync_playwright_enter b); [| reflexivity].
  destruct (chromium_launch b); [| reflexivity].
  destruct (browser_new_context b); [| reflexivity].
  destruct (context_new_page b); [| reflexivity].
  destruct (format (url site_config) username) as [u |]; [| reflexivity].
  simpl.
  destruct (page_goto b u) as [response |]; [| reflexivity].
  destruct (page_wait_for_timeout b u); [| reflexivity].
  destruct (page_content b u) as [content |]; [| reflexivity].
  destruct (browser_close b u); reflexivity.
Qed.

Lemma check_site_never_sleeps username site_config r :
  sleeps (calls (check_site username site_config r)) = 0.
Proof.
  unfold check_site. destruct (String.eqb _ "playwright").
  - apply check_with_playwright_never_sleeps.
  - apply check_with_requests_never_sleeps.
Qed.

Lemma check_loop_sleeps username world items : forall now results out,
  result (check_loop username items world now results) = Returns out ->
  sleeps (calls (check_loop username items world now results)) = length items.
Proof.
  induction items as [| [site_name site_config] rest IH]; intros now results out Hout.
  - reflexivity.
  - rewrite result_check_loop_cons in Hout. rewrite calls_check_loop_cons.
    destruct (result (check_site username site_config (world now))) as [r |];
      [| discriminate].
    rewrite sleeps_app, check_site_never_sleeps.
    change (sleeps (Sleep :: ?l)) with (S (sleeps l)).
    simpl. f_equal. eapply IH. exact Hout.
Qed.

Lemma calls_main_loop_cons username rest sites world now :
  calls (main_loop (username :: rest) sites world now) =
  match result (check_username username sites world now) with
  | Returns _ =>
      (calls (check_username username sites world now)
       ++ calls (main_loop rest sites world (now + length sites)))%list
  | Raises _ => calls (check_username username sites world now)
  end.
Proof.
  cbn [main_loop]. rewrite calls_bind.
  destruct (result (check_username username sites world now)); [| reflexivity].
  cbv beta zeta. rewrite calls_bind.
  destruct (result (main_loop rest sites world (now + length sites)));
    [| reflexivity].
  simpl. now rewrite app_nil_r.
Qed.

(** X5: A run that returns has paused once after every probe, the last one
    included: [check_username] sleeps as many times as there are sites, and
    the loop of [main] as many times as there are usernames times sites. *)
Theorem one_pause_per_probe :
  (forall username sites world now results,
      result (check_username username sites world now) = Returns results ->
      sleeps (calls (check_username username sites world now)) = length sites)
  /\
  (forall usernames sites world now reports,
      result (main_loop usernames sites world now) = Returns reports ->
      sleeps (calls (main_loop usernames sites world now))
      = length usernames * length sites).
Proof.
  split.
  - intros username sites world now results. apply check_loop_sleeps.
  - intros usernames sites world.
    induction usernames as [| username rest IH]; intros now reports Hret.
    + reflexivity.
    + rewrite result_main_loop_cons in Hret. rewrite calls_main_loop_cons.
      destruct (result (check_username username sites world now)) as [results |]
        eqn:Hres; [| discriminate].
      destruct (result (main_loop rest sites world (now + length sites)))
        as [more |] eqn:Hrest; [| discriminate].
      rewrite sleeps_app, (IH _ _ Hrest).
      unfold check_username in *.
      rewrite (check_loop_sleeps _ _ _ _ _ _ Hres). simpl. reflexivity.
Qed.

Lemma one_pause_per_probe_witness :
  sleeps (calls (check_username "alice" (sites_of CATEGORIES "3") dark_world 0))
  = length (sites_of CATEGORIES "3")
  /\ sleeps (calls (main_loop ["alice"; "bob"] (sites_of CATEGORIES "1") bright_world 0))
     = length ["alice"; "bob"] * length (sites_of CATEGORIES "1").
Proof.
  split.
  - eapply (proj1 one_pause_per_probe). vm_compute. reflexivity.
  - eapply (proj2 one_pause_per_probe). vm_compute. reflexivity.
Defined.

(** ** The platform checks of the Playwright probe (lines 131-146) *)

Lemma status_is_200_spec response :
  status_is_200 response = true <-> response = Some 200%Z.
Proof.
  destruct response as [code |]; simpl; [| split; discriminate].
  rewrite Z.eqb_eq. split; [now intros -> | now intros [= ->]].
Qed.

(** With a page fetched and no indicator matched, the answer rests on the
    status and the platform checks. *)
Lemma playwright_unmatched username site_config b o :
  result (rendered_fetch username site_config b) = Returns o ->
  failure_hit (body o) (get_default (failure_indicators site_config) []) = false ->
  success_hit username (body o) (get_default (success_indicators site_config) [])
    = Returns false ->
  result (check_with_playwright username site_config b) =
  Returns (if status_is_200 (status o)
              && platform_check username (request_url o) (final_url o)
           then (true, request_url o) else Not_Found).
Proof.
  intros Hfetch Hfail Hsucc.
  rewrite check_with_playwright_result, Hfetch.
  unfold playwright_verdict. rewrite Hfail, Hsucc.
  destruct (status_is_200 (status o) && platform_check _ _ _); reflexivity.
Qed.

Lemma found_when (c : bool) (u : string) :
  (Returns (if c then (true, u) else Not_Found) = Returns (true, u) <-> c = true)
  /\ (c = false -> Returns (if c then (true, u) else Not_Found) = Returns Not_Found).
Proof.
  destruct c; split; try reflexivity; try discriminate.
  - split; reflexivity.
  - split; discriminate.
Qed.

(** X6: Snapchat: when no indicator matched, the probe of an address with
    "snapchat.com" answers found exactly when the status is 200, the browser
    did not end on an "/explore/" address and the address it ended on holds
    the username, letter case apart; it answers "Not Found" otherwise. *)
Theorem snapchat_check :
  forall username site_config b o,
    result (rendered_fetch username site_config b) = Returns o ->
    failure_hit (body o) (get_default (failure_indicators site_config) []) = false ->
    success_hit username (body o) (get_default (success_indicators site_config) [])
      = Returns false ->
    str_in "snapchat.com" (request_url o) = true ->
    (result (check_with_playwright username site_config b)
       = Returns (true, request_url o)
     <-> status o = Some 200%Z
         /\ str_in "/explore/" (final_url o) = false
         /\ str_in (lower username) (lower (final_url o)) = true)
    /\ (result (check_with_playwright username site_config b)
          <> Returns (true, request_url o) ->
        result (check_with_playwright username site_config b) = Returns Not_Found).
Proof.
  intros username site_config b o Hfetch Hfail Hsucc Hsnap.
  rewrite (playwright_unmatched _ _ _ _ Hfetch Hfail Hsucc).
  unfold platform_check. rewrite Hsnap.
  destruct (found_when
              (status_is_200 (status o)
               && (negb (str_in "/explore/" (final_url o))
                   && str_in (lower username) (lower (final_url o))))
              (request_url o)) as [Hiff Hnot].
  split.
  - rewrite Hiff, !andb_true_iff, negb_true_iff, status_is_200_spec. tauto.
  - intros Hne. apply Hnot.
    destruct (status_is_200 (status o) && _); [| reflexivity].
    exfalso. apply Hne. reflexivity.
Qed.

(** X7: Instagram: when no indicator matched, the probe of an address with
    "instagram.com" and without "snapchat.com" answers found exactly when the
    status is 200, the address the browser ended on still holds
    "/username/" (in the username's own letter case) and holds no "login". *)
Theorem instagram_check :
  forall username site_config b o,
    result (rendered_fetch username site_config b) = Returns o ->
    failure_hit (body o) (get_default (failure_indicators site_config) []) = false ->
    success_hit username (body o) (get_default (success_indicators site_config) [])
      = Returns false ->
    str_in "snapchat.com" (request_url o) = false ->
    str_in "instagram.com" (request_url o) = true ->
    (result (check_with_playwright username site_config b)
       = Returns (true, request_url o)
     <-> status o = Some 200%Z
         /\ str_in ("/" ++ username ++ "/") (final_url o) = true
         /\ str_in "login" (final_url o) = false)
    /\ (result (check_with_playwright username site_config b)
          <> Returns (true, request_url o) ->
        result (check_with_playwright username site_config b) = Returns Not_Found).
Proof.
  intros username site_config b o Hfetch Hfail Hsucc Hsnap Hinsta.
  rewrite (playwright_unmatched _ _ _ _ Hfetch Hfail Hsucc).
  unfold platform_check. rewrite Hsnap, Hinsta.
  destruct (found_when
              (status_is_200 (status o)
               && (str_in ("/" ++ username ++ "/") (final_url o)
                   && negb (str_in "login" (final_url o))))
              (request_url o)) as [Hiff Hnot].
  split.
  - rewrite Hiff, !andb_true_iff, negb_true_iff, status_is_200_spec. tauto.
  - intros Hne. apply Hnot.
    destruct (status_is_200 (status o) && _); [| reflexivity].
    exfalso. apply Hne. reflexivity.
Qed.

(** X8: X / Twitter: when no indicator matched, the probe of an address with
    "x.com" or "twitter.com", and with neither "snapchat.com" nor
    "instagram.com", answers found exactly when the status is 200, the
    address the browser ended on holds "/username" and holds no "home". *)
Theorem twitter_check :
  forall username site_config b o,
    result (rendered_fetch username site_config b) = Returns o ->
    failure_hit (body o) (get_default (failure_indicators site_config) []) = false ->
    success_hit username (body o) (get_default (success_indicators site_config) [])
      = Returns false ->
    str_in "snapchat.com" (request_url o) = false ->
    str_in "instagram.com" (request_url o) = false ->
    str_in "x.com" (request_url o) = true
    \/ str_in "twitter.com" (request_url o) = true ->
    (result (check_with_playwright username site_config b)
       = Returns (true, request_url o)
     <-> status o = Some 200%Z
         /\ str_in ("/" ++ username) (final_url o) = true
         /\ str_in "home" (final_url o) = false)
    /\ (result (check_with_playwright username site_config b)
          <> Returns (true, request_url o) ->
        result (check_with_playwright username site_config b) = Returns Not_Found).
Proof.
  intros username site_config b o Hfetch Hfail Hsucc Hsnap Hinsta Hx.
  rewrite (playwright_unmatched _ _ _ _ Hfetch Hfail Hsucc).
  unfold platform_check. rewrite Hsnap, Hinsta.
  assert (Hor : str_in "x.com" (request_url o)
                || str_in "twitter.com" (request_url o) = true).
  { apply orb_true_iff. exact Hx. }
  rewrite Hor.
  destruct (found_when
              (status_is_200 (status o)
               && (str_in ("/" ++ username) (final_url o)
                   && negb (str_in "home" (final_url o))))
              (request_url o)) as [Hiff Hnot].
  split.
  - rewrite Hiff, !andb_true_iff, negb_true_iff, status_is_200_spec. tauto.
  - intros Hne. apply Hnot.
    destruct (status_is_200 (status o) && _); [| reflexivity].
    exfalso. apply Hne. reflexivity.
Qed.

(** X9: Off the three platforms the Playwright probe finds a username by a
    success indicator or not at all: when no indicator matched and the
    address holds none of "snapchat.com", "instagram.com", "x.com" and
    "twitter.com", it answers "Not Found" whatever the status. *)
Theorem playwright_elsewhere_needs_an_indicator :
  forall username site_config b o,
    result (rendered_fetch username site_config b) = Returns o ->
    failure_hit (body o) (get_default (failure_indicators site_config) []) = false ->
    success_hit username (body o) (get_default (success_indicators site_config) [])
      = Returns false ->
    str_in "snapchat.com" (request_url o) = false ->
    str_in "instagram.com" (request_url o) = false ->
    str_in "x.com" (request_url o) = false ->
    str_in "twitter.com" (request_url o) = false ->
    result (check_with_playwright username site_config b) = Returns Not_Found.
Proof.
  intros username site_config b o Hfetch Hfail Hsucc Hsnap Hinsta Hx Htw.
  rewrite (playwright_unmatched _ _ _ _ Hfetch Hfail Hsucc).
  unfold platform_check. rewrite Hsnap, Hinsta, Hx, Htw. simpl.
  now rewrite andb_false_r.
Qed.

Lemma snapchat_check_witness :
  result (check_with_playwright "alice" Snapchat
            (showing (Some 200%Z) "<html></html>" "https://www.snapchat.com/add/Alice/"))
  = Returns (true, "https://www.snapchat.com/add/alice/")
  <-> Some 200%Z = Some 200%Z
      /\ str_in "/explore/" "https://www.snapchat.com/add/Alice/" = false
      /\ str_in (lower "alice") (lower "https://www.snapchat.com/add/Alice/") = true.
Proof.
  apply (proj1 (snapchat_check "alice" Snapchat
                  (showing (Some 200%Z) "<html></html>"
                     "https://www.snapchat.com/add/Alice/")
                  {| request_url := "https://www.snapchat.com/add/alice/";
                     status := Some 200%Z;
                     body := lower "<html></html>";
                     final_url := "https://www.snapchat.com/add/Alice/" |}
                  eq_refl eq_refl eq_refl eq_refl)).
Defined.

Lemma instagram_check_witness :
  result (check_with_playwright "alice" Instagram
            (showing (Some 200%Z) "<html></html>"
               "https://www.instagram.com/accounts/login/?next=/alice/"))
  = Returns (true, "https://www.instagram.com/alice/")
  <-> Some 200%Z = Some 200%Z
      /\ str_in ("/" ++ "alice" ++ "/")
           "https://www.instagram.com/accounts/login/?next=/alice/" = true
      /\ str_in "login" "https://www.instagram.com/accounts/login/?next=/alice/" = false.
Proof.
  apply (proj1 (instagram_check "alice" Instagram
                  (showing (Some 200%Z) "<html></html>"
                     "https://www.instagram.com/accounts/login/?next=/alice/")
                  {| request_url := "https://www.instagram.com/alice/";
                     status := Some 200%Z;
                     body := lower "<html></html>";
                     final_url := "https://www.instagram.com/accounts/login/?next=/alice/" |}
                  eq_refl eq_refl eq_refl eq_refl eq_refl)).
Defined.

Lemma twitter_check_witness :
  result (check_with_playwright "alice" Twitter
            (showing (Some 200%Z) "<html></html>" "https://x.com/alice"))
  = Returns (true, "https://x.com/alice/")
  <-> Some 200%Z = Some 200%Z
      /\ str_in ("/" ++ "alice") "https://x.com/alice" = true
      /\ str_in "home" "https://x.com/alice" = false.
Proof.
  apply (proj1 (twitter_check "alice" Twitter
                  (showing (Some 200%Z) "<html></html>" "https://x.com/alice")
                  {| request_url := "https://x.com/alice/";
                     status := Some 200%Z;
                     body := lower "<html></html>";
                     final_url := "https://x.com/alice" |}
                  eq_refl eq_refl eq_refl eq_refl eq_refl (or_introl eq_refl))).
Defined.

Lemma playwright_elsewhere_needs_an_indicator_witness :
  result (check_with_playwright "alice" (plain_site "playwright")
            (showing (Some 200%Z) "{ id: 7 }" "https://example.org/u/alice"))
  = Returns Not_Found.
Proof.
  apply (playwright_elsewhere_needs_an_indicator "alice" (plain_site "playwright")
           (showing (Some 200%Z) "{ id: 7 }" "https://example.org/u/alice")
           {| request_url := "https://example.org/u/alice";
              status := Some 200%Z;
              body := lower "{ id: 7 }";
              final_url := "https://example.org/u/alice" |}
           eq_refl eq_refl eq_refl eq_refl eq_refl eq_refl eq_refl).
Defined.

(** ** What the requests probe reads *)

Lemma failure_hit_lower content (indicators indicators' : list string) :
  map lower indicators = map lower indicators' ->
  failure_hit content indicators = failure_hit content indicators'.
Proof.
  revert indicators'.
  induction indicators as [| i rest IH]; intros [| i' rest'] Hmap;
    try discriminate; [reflexivity |].
  simpl in *. injection Hmap as Hi Hrest.
  rewrite Hi, (IH _ Hrest). reflexivity.
Qed.

(** X10: The requests probe reads the address template, the failure indicators
    up to letter case, the status, and the text up to letter case - and
    nothing else: two sites that agree on the first two, answered with the
    same status and texts that differ in letter case only, get the same
    answer, whatever their success indicators and methods are. *)
Theorem requests_probe_reads :
  forall username site_config site_config' r r' u response response',
    url site_config = url site_config' ->
    map lower (get_default (failure_indicators site_config) [])
      = map lower (get_default (failure_indicators site_config') []) ->
    format (url site_config) username = Returns u ->
    requests_get r u = Returns response ->
    requests_get r' u = Returns response' ->
    status_code response = status_code response' ->
    lower (text response) = lower (text response') ->
    check_with_requests username site_config r
    = check_with_requests username site_config' r'.
Proof.
  intros username site_config site_config' r r' u response response'
    Hurl Hfail Hfmt Hget Hget' Hstatus Htext.
  unfold check_with_requests.
  rewrite <- Hurl, Hfmt. simpl. rewrite Hget, Hget'. simpl.
  rewrite <- Hstatus, <- Htext, (failure_hit_lower _ _ _ Hfail). reflexivity.
Qed.

Lemma requests_probe_reads_witness :
  check_with_requests "alice" Facebook
    (answering 200 "THIS CONTENT ISN'T AVAILABLE" "https://www.facebook.com/alice/"
       timing_out)
  = check_with_requests "alice"
      {| url := "https://www.facebook.com/{}/";
         method := None;
         success_indicators := Some ["timeline"];
         failure_indicators := Some ["this content isn't available";
                                     "PAGE NOT FOUND"] |}
      (answering 200 "This content isn't available" "https://www.facebook.com/"
         (showing None "" "")).
Proof.
  apply (requests_probe_reads "alice" Facebook _ _ _
           "https://www.facebook.com/alice/"
           {| status_code := 200; text := "THIS CONTENT ISN'T AVAILABLE";
              response_url := "https://www.facebook.com/alice/" |}
           {| status_code := 200; text := "This content isn't available";
              response_url := "https://www.facebook.com/" |});
    reflexivity.
Defined.

(** ** The order of the merged category (line 72) *)

Lemma dict_mem_set {V : Type} (d : dict V) k v k' :
  dict_mem k' (dict_set k v d) = (String.eqb k' k || dict_mem k' d)%bool.
Proof.
  unfold dict_mem. rewrite dict_get_set. destruct (String.eqb k' k); reflexivity.
Qed.

Lemma dict_mem_In {V : Type} (d : dict V) k :
  dict_mem k d = true <-> In k (keys d).
Proof.
  unfold dict_mem. rewrite dict_get_In.
  destruct (dict_get d k) as [v |]; split; try discriminate; eauto.
  intros [v Hv]. discriminate.
Qed.

Lemma keys_dict_set {V : Type} (d : dict V) k v :
  keys (dict_set k v d) = if dict_mem k d then keys d else (keys d ++ [k])%list.
Proof.
  destruct (dict_mem k d) eqn:Hmem.
  - apply keys_dict_set_present. now apply dict_mem_In.
  - rewrite dict_set_fresh.
    + unfold keys. now rewrite map_app.
    + intros Hin. apply dict_mem_In in Hin. congruence.
Qed.

(** X11: [{**a, **b}] lists the names of [a] in their order, then the names of
    [b] that [a] lacks, in the order of [b]. *)
Theorem merge_order :
  forall (a b : dict SiteConfig),
    NoDup (keys b) ->
    keys (dict_merge a b)
    = (keys a ++ filter (fun k => negb (dict_mem k a)) (keys b))%list.
Proof.
  intros a b. revert a. unfold dict_merge.
  induction b as [| [k v] rest IH]; intros a Hnd; simpl.
  - now rewrite app_nil_r.
  - inversion Hnd as [| ? ? Hfresh Hrest]; subst.
    rewrite (IH _ Hrest), keys_dict_set.
    assert (Hsame : filter (fun k' => negb (dict_mem k' (dict_set k v a))) (keys rest)
                    = filter (fun k' => negb (dict_mem k' a)) (keys rest)).
    { apply filter_ext_in. intros k' Hin. rewrite dict_mem_set.
      destruct (String.eqb_spec k' k) as [-> | Hne]; [contradiction | reflexivity]. }
    rewrite Hsame.
    destruct (dict_mem k a); simpl; [reflexivity |].
    now rewrite <- app_assoc.
Qed.

Lemma merge_order_witness :
  keys (dict_merge two_mirrors tech_sites)
  = (keys two_mirrors
     ++ filter (fun k => negb (dict_mem k two_mirrors)) (keys tech_sites))%list.
Proof.
  apply (merge_order two_mirrors tech_sites).
  repeat constructor; simpl; intuition discriminate.
Defined.

(** ** Looking a site up in the results *)

Lemma per_site_lookup username world now items entries :
  per_site username world now items entries ->
  NoDup (keys items) ->
  forall i site_name site_config,
    nth_error items i = Some (site_name, site_config) ->
    exists r,
      result (check_site username site_config (world (now + i))) = Returns r
      /\ dict_get entries site_name = Some r.
Proof.
  induction 1 as [| now n c rest r entries Hprobe Hper IH]; intros Hnd i sn sc Hnth.
  - destruct i; discriminate.
  - simpl in Hnd. inversion Hnd as [| ? ? Hfresh Hrest]; subst.
    destruct i as [| j]; simpl in Hnth.
    + injection Hnth as -> ->. exists r. rewrite Nat.add_0_r. split; [exact Hprobe |].
      simpl. now rewrite String.eqb_refl.
    + destruct (IH Hrest j sn sc Hnth) as [r' [Hr' Hget]].
      exists r'. rewrite Nat.add_succ_r. split; [exact Hr' |].
      simpl. destruct (String.eqb_spec sn n) as [-> | Hne]; [| exact Hget].
      exfalso. apply Hfresh.
      apply nth_error_In in Hnth. apply (in_map fst) in Hnth. exact Hnth.
Qed.

(** X12: For any dictionary of sites whose addresses can be built, on a network
    that fails with transport errors only: [check_username] returns, its
    results carry the site names in the sites' order, and looking a site up
    in them gives what the probe of that site returned at its turn - the
    site in place [i] is probed [i] pauses after the first. *)
Theorem results_lookup :
  forall username sites world now,
    transport_errors_only world ->
    addresses_format username sites ->
    NoDup (keys sites) ->
    exists results,
      result (check_username username sites world now) = Returns results
      /\ keys results = keys sites
      /\ forall i site_name site_config,
           nth_error sites i = Some (site_name, site_config) ->
           exists r,
             result (check_site username site_config (world (now + i))) = Returns r
             /\ dict_get results site_name = Some r.
Proof.
  intros username sites world now Hnet Hfmt Hnd.
  destruct (check_username_returns username sites world now Hnet Hfmt Hnd)
    as [results [Hres Hper]].
  exists results. split; [exact Hres |]. split.
  - eapply per_site_keys. exact Hper.
  - eapply per_site_lookup; eauto.
Qed.

Lemma results_lookup_witness :
  exists results,
    result (check_username "alice" three_sites three_sites_world 0) = Returns results
    /\ keys results = keys three_sites
    /\ forall i site_name site_config,
         nth_error three_sites i = Some (site_name, site_config) ->
         exists r,
           result (check_site "alice" site_config (three_sites_world (0 + i)))
             = Returns r
           /\ dict_get results site_name = Some r.
Proof.
  apply (results_lookup "alice" three_sites three_sites_world 0).
  - intros now u e H. simpl in H.
    destruct (str_in "b.example.org" u); discriminate.
  - repeat constructor; simpl; eexists; reflexivity.
  - repeat constructor; simpl; intuition discriminate.
Defined.

(** ** [main] *)

Lemma choice_in_CATEGORIES choice :
  dict_mem choice CATEGORIES = true <-> In choice ["1"; "2"; "3"].
Proof.
  unfold dict_mem, CATEGORIES. simpl.
  destruct (String.eqb_spec choice "1") as [-> | H1]; [simpl; tauto |].
  destruct (String.eqb_spec choice "2") as [-> | H2]; [simpl; tauto |].
  destruct (String.eqb_spec choice "3") as [-> | H3]; [simpl; tauto |].
  simpl. split; [discriminate |].
  intros [H | [H | [H | []]]]; congruence.
Qed.

(** X13: [main] exits without probing exactly when it is given no username or
    more than three, or a choice other than "1", "2" and "3". *)
Theorem main_exits :
  forall argv choice world,
    main argv choice world = None
    <-> length argv < 2 \/ 4 < length argv \/ ~ In choice ["1"; "2"; "3"].
Proof.
  intros argv choice world. unfold main.
  destruct (Nat.ltb_spec (length argv) 2) as [Hlt | Hge]; simpl.
  - split; auto.
  - destruct (Nat.ltb_spec 4 (length argv)) as [Hgt | Hle]; simpl.
    + split; auto.
    + destruct (dict_mem choice CATEGORIES) eqn:Hmem; simpl.
      * apply choice_in_CATEGORIES in Hmem.
        split; [discriminate |]. intros [H | [H | H]]; [lia | lia | contradiction].
      * split; [| reflexivity]. intros _. right. right.
        intros Hin. apply choice_in_CATEGORIES in Hin. congruence.
Qed.

(** X14: When [main] goes on to probe, on a network that fails with transport
    errors only, it returns one report per username given on the command
    line, in their order, between one and three of them; each report has an
    entry for every site of the chosen category, in the category's order,
    and the score of those entries. *)
Theorem main_reports :
  forall argv choice world run,
    main argv choice world = Some run ->
    transport_errors_only world ->
    exists reports,
      result run = Returns reports
      /\ map report_username reports = tl argv
      /\ 1 <= length reports <= 3
      /\ Forall (fun report =>
                   keys (report_results report) = keys (sites_of CATEGORIES choice)
                   /\ report_score report
                      = possibility_score (found_count (report_results report))
                                          (total_sites (report_results report)))
           reports.
Proof.
  intros argv choice world run Hmain Hnet. unfold main in Hmain.
  destruct (Nat.ltb_spec (length argv) 2) as [Hlt | Hge]; [discriminate |].
  destruct (Nat.ltb_spec 4 (length argv)) as [Hgt | Hle]; [discriminate |].
  simpl in Hmain.
  destruct (dict_mem choice CATEGORIES); [| discriminate].
  simpl in Hmain. injection Hmain as <-.
  destruct (main_loop_returns (tl argv) (sites_of CATEGORIES choice) world 0 Hnet
              (catalogue_keys_NoDup choice)) as [reports [Hret [Hnames Hkeys]]].
  { intros username _. apply catalogue_addresses_format. }
  exists reports. split; [exact Hret |]. split; [exact Hnames |]. split.
  - rewrite <- (length_map report_username reports), Hnames.
    destruct argv as [| program usernames]; simpl in *; lia.
  - pose proof (main_loop_scores _ _ _ _ _ Hret) as Hscores.
    rewrite Forall_forall in *. intros report Hin. split; auto.
Qed.

Lemma main_reports_witness :
  exists reports,
    result (main_loop ["alice"; "bob"] (sites_of CATEGORIES "2") dark_world 0)
      = Returns reports
    /\ map report_username reports = tl ["osint_checker.py"; "alice"; "bob"]
    /\ 1 <= length reports <= 3
    /\ Forall (fun report =>
                 keys (report_results report) = keys (sites_of CATEGORIES "2")
                 /\ report_score report
                    = possibility_score (found_count (report_results report))
                                        (total_sites (report_results report)))
         reports.
Proof.
  apply (main_reports ["osint_checker.py"; "alice"; "bob"] "2" dark_world).
  - reflexivity.
  - intros now u e H. simpl in H. injection H as <-. reflexivity.
Defined.

(** ** The printed lines (lines 240-244) *)

(** X15: The lines printed for the results show, for each site, whether it was
    found and - for a found site - where: two sets of results that agree on
    that print the same lines, so "Error checking" prints as "Not Found"
    does; and no line of a found site is the line of a site not found. *)
Theorem printed_results_show :
  (forall results results',
      Forall2 (fun entry entry' =>
                 fst entry = fst entry'
                 /\ fst (snd entry) = fst (snd entry')
                 /\ (fst (snd entry) = true -> snd (snd entry) = snd (snd entry')))
        results results' ->
      printed_results results = printed_results results')
  /\ (forall site message site' message',
         result_line site (true, message) <> result_line site' (false, message')).
Proof.
  split.
  - induction 1 as [| [site [status message]] [site' [status' message']]
                      rest rest' (Hsite & Hstatus & Hmessage) _ IH];
      [reflexivity |].
    simpl in Hsite, Hstatus, Hmessage. subst site' status'.
    unfold printed_results in *. cbn [map]. rewrite IH. f_equal.
    simpl. destruct status; [now rewrite Hmessage | reflexivity].
  - intros site message site' message'. simpl. discriminate.
Qed.

Lemma printed_results_show_witness :
  printed_results [("GitHub", (true, "https://api.github.com/users/alice"));
                   ("LinkedIn", Error_checking)]
  = printed_results [("GitHub", (true, "https://api.github.com/users/alice"));
                     ("LinkedIn", Not_Found)].
Proof.
  apply (proj1 printed_results_show).
  repeat constructor; simpl; discriminate.
Defined.

(** ** The ends of the scale *)

Lemma ends_below_32 :
  all_below (fun total => all_below (fun found => ends_of_scale found (S total))
                            (S (S total))) 31.
Proof.
  cbn [all_below]. unfold ends_of_scale.
  repeat match goal with |- _ /\ _ => split end;
    try exact I; vm_compute; reflexivity.
Qed.

Lemma full_below_32 :
  all_below (fun total =>
               possibility_score (S total) (S total) = Float 100%float
               /\ possibility_score 0 (S total) = Float 0%float) 31.
Proof.
  cbn [all_below].
  repeat match goal with |- _ /\ _ => split end;
    try exact I; vm_compute; reflexivity.
Qed.

(** For [found] out of [total], with 1 to 31 sites, the score of line 235 is
    100.0 exactly for all of them and 0.0 exactly for none. *)
Lemma possibility_score_ends found total :
  0 < total < 32 -> found <= total ->
  (possibility_score found total = Float 100%float <-> found = total)
  /\ (possibility_score found total = Float 0%float <-> found = 0).
Proof.
  intros [Hpos Hlt] Hle.
  destruct total as [| total]; [lia |].
  assert (Hends : ends_of_scale found (S total)).
  { apply (all_below_spec _ _ (all_below_spec _ _ ends_below_32 total
             ltac:(lia))). lia. }
  destruct (all_below_spec _ _ full_below_32 total ltac:(lia)) as [Hfull Hnone].
  destruct Hends as [H100 H0]. split; split.
  - intros Hscore. rewrite Hscore in H100. simpl in H100.
    apply Nat.eqb_eq. rewrite <- H100. reflexivity.
  - intros ->. exact Hfull.
  - intros Hscore. rewrite Hscore in H0. simpl in H0.
    apply Nat.eqb_eq. rewrite <- H0. reflexivity.
  - intros ->. exact Hnone.
Qed.

Lemma filter_keeps_all {A : Type} (p : A -> bool) (l : list A) :
  length (filter p l) = length l <-> Forall (fun x => p x = true) l.
Proof.
  induction l as [| x rest IH]; simpl.
  - split; [constructor | reflexivity].
  - destruct (p x) eqn:Hp; simpl.
    + split.
      * intros [= H]. constructor; [exact Hp | now apply IH].
      * intros H. inversion H; subst. f_equal. now apply IH.
    + pose proof (filter_length_le p rest) as Hle. split; [lia |].
      intros H. inversion H; subst. congruence.
Qed.

Lemma filter_keeps_none {A : Type} (p : A -> bool) (l : list A) :
  length (filter p l) = 0 <-> Forall (fun x => p x = false) l.
Proof.
  induction l as [| x rest IH]; simpl.
  - split; [constructor | reflexivity].
  - destruct (p x) eqn:Hp; simpl.
    + split; [discriminate |]. intros H. inversion H; subst. congruence.
    + rewrite IH. split.
      * intros H. now constructor.
      * intros H. now inversion H.
Qed.

(** X16: In every report the loop of [main] returns, with 1 to 31 entries,
    the score is 100.0 exactly when every entry is marked found and 0.0
    exactly when none is. *)
Theorem score_ends :
  forall usernames sites world now reports report,
    result (main_loop usernames sites world now) = Returns reports ->
    In report reports ->
    0 < length (report_results report) < 32 ->
    (report_score report = Float 100%float
     <-> Forall (fun entry => fst (snd entry) = true) (report_results report))
    /\ (report_score report = Float 0%float
        <-> Forall (fun entry => fst (snd entry) = false) (report_results report)).
Proof.
  intros usernames sites world now reports report Hret Hin Hbound.
  pose proof (main_loop_scores _ _ _ _ _ Hret) as Hscores.
  rewrite Forall_forall in Hscores. specialize (Hscores report Hin).
  rewrite found_count_counts in Hscores. unfold total_sites in Hscores.
  rewrite Hscores.
  rewrite <- filter_keeps_all, <- filter_keeps_none.
  apply possibility_score_ends; [exact Hbound | apply filter_length_le].
Qed.

Lemma score_ends_witness :
  (report_score alice_report = Float 100%float
   <-> Forall (fun entry => fst (snd entry) = true) (report_results alice_report))
  /\ (report_score alice_report = Float 0%float
      <-> Forall (fun entry => fst (snd entry) = false) (report_results alice_report)).
Proof.
  refine (score_ends ["alice"] three_sites three_sites_world 0
            [alice_report] alice_report _ _ _).
  - vm_compute. reflexivity.
  - left. reflexivity.
  - simpl. lia.
Defined.

(** ** Success indicators are tried in order *)

Lemma success_hit_raises username content earlier indicator later e :
  Forall (fun i => exists formatted,
              format i username = Returns formatted
              /\ str_in (lower formatted) content = false) earlier ->
  format indicator username = Raises e ->
  success_hit username content (earlier ++ indicator :: later)%list = Raises e.
Proof.
  intros Hearlier Hfmt.
  induction Hearlier as [| i rest (f & Hf & Hmiss) _ IH]; simpl.
  - now rewrite Hfmt.
  - now rewrite Hf, Hmiss.
Qed.

(** X17: A success indicator that cannot be formatted with the username ends the
    Playwright probe with "Error checking" when it is reached - no failure
    indicator matched and no earlier success indicator did - whatever the
    indicators after it and the status are. *)
Theorem unformattable_indicator_is_an_error :
  forall username site_config b o earlier indicator later e,
    result (rendered_fetch username site_config b) = Returns o ->
    failure_hit (body o) (get_default (failure_indicators site_config) []) = false ->
    get_default (success_indicators site_config) []
      = (earlier ++ indicator :: later)%list ->
    Forall (fun i => exists formatted,
                format i username = Returns formatted
                /\ str_in (lower formatted) (body o) = false) earlier ->
    format indicator username = Raises e ->
    result (check_with_playwright username site_config b) = Returns Error_checking.
Proof.
  intros username site_config b o earlier indicator later e
    Hfetch Hfail Hlist Hearlier Hfmt.
  rewrite check_with_playwright_result, Hfetch.
  unfold playwright_verdict. rewrite Hfail, Hlist.
  now rewrite (success_hit_raises _ _ _ _ _ _ Hearlier Hfmt).
Qed.

Lemma unformattable_indicator_is_an_error_witness :
  result (check_with_playwright "alice" stray_brace_site
            (showing (Some 200%Z) "Member since 2019" "https://example.org/u/alice"))
  = Returns Error_checking.
Proof.
  apply (unformattable_indicator_is_an_error "alice" stray_brace_site
           (showing (Some 200%Z) "Member since 2019" "https://example.org/u/alice")
           {| request_url := "https://example.org/u/alice";
              status := Some 200%Z;
              body := lower "Member since 2019";
              final_url := "https://example.org/u/alice" |}
           [] "}" ["member since"] ValueError).
  - reflexivity.
  - reflexivity.
  - reflexivity.
  - constructor.
  - reflexivity.
Defined.
